(** * The extensible-record codec of the [opencode_ai] Python SDK models

    A shallow embedding of
    [opencode_ai/models/assistant_message_tokens.py] and
    [opencode_ai/models/event_message_updated.py]: two [attrs] classes with
    named attributes, a dictionary of additional properties, and the pair
    [to_dict] / [from_dict].

    Python dictionaries are finite maps with string keys; two dictionaries
    are equal when they hold the same key-value pairs, whatever the order
    of insertion, which is the (extensional) equality of [gmap]. *)

From Stdlib Require Import ZArith SpecFloat.
From stdpp Require Import gmap strings list fin_maps.

Set Warnings "-register-all".

(** ** Values *)

(** The [Any] of the type annotations: what a parsed wire payload holds. *)
Inductive value : Type :=
  | VNone
  | VBool (b : bool)
  | VInt (z : Z)
  | VFloat (f : spec_float)
  | VStr (s : string)
  | VList (l : list value)
  | VDict (m : gmap string value).

Abbreviation dict := (gmap string value).

(** ** Exceptions *)

(** [KeyError key] is what [d.pop(key)], [d[key]] and [del d[key]] raise on
    an absent key.  [ValueError expected got] is the error of the [const]
    check, whose message is
    [f"type must match const '{expected}', got '{got}'"].  [TypeError] is
    raised by [dict(x)] when [x] is no mapping. *)
Inductive error : Type :=
  | KeyError (key : string)
  | ValueError (expected : string) (got : value)
  | TypeError.

Inductive result (A : Type) : Type :=
  | Ok (a : A)
  | Raise (e : error).
Arguments Ok {A} a.
Arguments Raise {A} e.

#[global] Instance result_ret : MRet result := λ A a, Ok a.
#[global] Instance result_bind : MBind result := λ A B f m,
  match m with
  | Ok a => f a
  | Raise e => Raise e
  end.

(** ** Dictionary primitives *)

(** [d.pop(key)]: the value and the dictionary without the key. *)
Definition dict_pop (d : dict) (key : string) : result (value * dict) :=
  match d !! key with
  | Some v => Ok (v, delete key d)
  | None => Raise (KeyError key)
  end.

(** [d.update(other)]: the entries of [other] overwrite those of [d]. *)
Definition dict_update (d other : dict) : dict := other ∪ d.

(** [d[key]] *)
Definition dict_getitem (d : dict) (key : string) : result value :=
  match d !! key with
  | Some v => Ok v
  | None => Raise (KeyError key)
  end.

(** [d[key] = v] *)
Definition dict_setitem (d : dict) (key : string) (v : value) : dict :=
  <[key := v]> d.

(** [del d[key]] *)
Definition dict_delitem (d : dict) (key : string) : result dict :=
  match d !! key with
  | Some _ => Ok (delete key d)
  | None => Raise (KeyError key)
  end.

(** [key in d] *)
Definition dict_contains (d : dict) (key : string) : bool :=
  bool_decide (is_Some (d !! key)).

(** [v != s] for a string literal [s]: only an equal string is not
    different. *)
Definition ne_str (v : value) (s : string) : bool :=
  match v with
  | VStr s' => negb (String.eqb s' s)
  | _ => true
  end.

(** ** Dictionary objects

    A Python dictionary is an object: [from_dict] receives a reference to
    the caller's dictionary and [d.pop] mutates the object [d] refers to.
    The store maps the location of every dictionary object to its current
    contents.  A computation threads the store and keeps it when it
    raises, as an exception undoes nothing.  The objects of the store are
    the dictionaries the two classes receive and create; the values a
    dictionary holds are given by their contents, so the store says which
    key-value pairs a dictionary has, and not whether two dictionaries hold
    one and the same value object. *)

Definition loc : Type := positive.

Abbreviation store := (gmap loc dict).

Definition M (A : Type) : Type := store → result A * store.

#[global] Instance M_ret : MRet M := λ A a σ, (Ok a, σ).
#[global] Instance M_bind : MBind M := λ A B f m σ,
  match m σ with
  | (Ok a, σ') => f a σ'
  | (Raise e, σ') => (Raise e, σ')
  end.

(** A computation that does not touch the store. *)
Definition lift {A} (m : result A) : M A := λ σ, (m, σ).

(** A new dictionary object holding [m]. *)
Definition obj_new (m : dict) : M loc := λ σ,
  let l := fresh (dom σ) in (Ok l, <[l := m]> σ).

(** [dict(src)]: a new object with the entries of the object at [src].
    (A reference always refers to an object; a location outside the store
    is given the error of a non-mapping.) *)
Definition obj_copy (src : loc) : M loc := λ σ,
  match σ !! src with
  | Some m => obj_new m σ
  | None => (Raise TypeError, σ)
  end.

(** [d.pop(key)] on the object at [d]. *)
Definition obj_pop (d : loc) (key : string) : M value := λ σ,
  match σ !! d with
  | Some m =>
      match dict_pop m key with
      | Ok (v, m') => (Ok v, <[d := m']> σ)
      | Raise e => (Raise e, σ)
      end
  | None => (Raise TypeError, σ)
  end.

(** [d.update(other)] on the objects at [d] and [other]. *)
Definition obj_update (d other : loc) : M unit := λ σ,
  match σ !! d, σ !! other with
  | Some m, Some m' => (Ok (), <[d := dict_update m m']> σ)
  | _, _ => (Raise TypeError, σ)
  end.

(** [d[key]], [d[key] = v], [del d[key]] and [key in d] on the object at
    [d]. *)
Definition obj_getitem (d : loc) (key : string) : M value := λ σ,
  match σ !! d with
  | Some m => (dict_getitem m key, σ)
  | None => (Raise TypeError, σ)
  end.

Definition obj_setitem (d : loc) (key : string) (v : value) : M unit := λ σ,
  match σ !! d with
  | Some m => (Ok (), <[d := dict_setitem m key v]> σ)
  | None => (Raise TypeError, σ)
  end.

Definition obj_delitem (d : loc) (key : string) : M unit := λ σ,
  match σ !! d with
  | Some m =>
      match dict_delitem m key with
      | Ok m' => (Ok (), <[d := m']> σ)
      | Raise e => (Raise e, σ)
      end
  | None => (Raise TypeError, σ)
  end.

Definition obj_contains (d : loc) (key : string) : M bool := λ σ,
  match σ !! d with
  | Some m => (Ok (dict_contains m key), σ)
  | None => (Raise TypeError, σ)
  end.

(** The computation [m] leaves every object of [σ] as it was. *)
Definition preserves {A} (m : M A) (σ : store) : Prop :=
  ∀ l, is_Some (σ !! l) → (m σ).2 !! l = σ !! l.

(** ** The codec interface of nested records *)

(** Every model class has [to_dict(self)] and the class method
    [from_dict(src_dict)].  A parent hands to the nested [from_dict] whatever
    it popped, so the nested deserializer is a function of a [value]. *)
Class Codec (T : Type) : Type := {
  nested_to_dict : T → dict;
  nested_from_dict : value → result T;
}.

(** The nested record [c] survives its own round trip. *)
Definition roundtrips `{Codec T} (c : T) : Prop :=
  nested_from_dict (VDict (nested_to_dict c)) = Ok c.

(** The nested codec gives back the map [v] it read. *)
Definition reserializes `{Codec T} (v : value) : Prop :=
  ∀ c, nested_from_dict v = Ok c → VDict (nested_to_dict c) = v.

(** ** [AssistantMessageTokens] *)

Module AssistantMessageTokens.
Section defs.
Context {Cache : Type} `{!Codec Cache}.

(** The attributes [input_], [output] and [reasoning] are annotated
    [float]; nothing checks the annotation, so they hold the value that
    was supplied.  [additional_properties] holds a dictionary: the
    dictionary itself ([Bag := dict]) where only its contents matter, the
    location of the object ([Bag := loc]) in the store model. *)
Record record (Bag : Type) : Type := mk {
  input_ : value;
  output : value;
  reasoning : value;
  cache : Cache;
  additional_properties : Bag;
}.
#[global] Arguments mk {Bag} _ _ _ _ _.
#[global] Arguments input_ {Bag} _.
#[global] Arguments output {Bag} _.
#[global] Arguments reasoning {Bag} _.
#[global] Arguments cache {Bag} _.
#[global] Arguments additional_properties {Bag} _.

Definition t : Type := record dict.

(** The generated initializer; [additional_properties] has [init=False]
    and [factory=dict]. *)
Definition __init__ (input_ output reasoning : value) (cache : Cache) : t :=
  mk input_ output reasoning cache ∅.

Definition set_input_ (self : t) (v : value) : t :=
  mk v (output self) (reasoning self) (cache self)
     (additional_properties self).

Definition set_output (self : t) (v : value) : t :=
  mk (input_ self) v (reasoning self) (cache self)
     (additional_properties self).

Definition set_reasoning (self : t) (v : value) : t :=
  mk (input_ self) (output self) v (cache self)
     (additional_properties self).

Definition set_cache (self : t) (c : Cache) : t :=
  mk (input_ self) (output self) (reasoning self) c
     (additional_properties self).

Definition set_additional_properties {Bag Bag'}
    (self : record Bag) (d : Bag') : record Bag' :=
  mk (input_ self) (output self) (reasoning self) (cache self) d.

Definition field_names : list string :=
  ["input"; "output"; "reasoning"; "cache"].

Definition to_dict (self : t) : dict :=
  let input_ := input_ self in
  let output := output self in
  let reasoning := reasoning self in
  let cache := VDict (nested_to_dict (cache self)) in
  let field_dict : dict := ∅ in
  let field_dict := dict_update field_dict (additional_properties self) in
  let field_dict :=
    dict_update field_dict
      (<["input" := input_]> (<["output" := output]>
        (<["reasoning" := reasoning]> (<["cache" := cache]> ∅)))) in
  field_dict.

(** [from_dict] on the contents of [src_dict]: [dict(src_dict)] has the
    same contents. *)
Definition from_dict (src_dict : dict) : result t :=
  let d := src_dict in
  '(input_, d) ← dict_pop d "input";
  '(output, d) ← dict_pop d "output";
  '(reasoning, d) ← dict_pop d "reasoning";
  '(cache_v, d) ← dict_pop d "cache";
  cache ← nested_from_dict cache_v;
  let assistant_message_tokens := __init__ input_ output reasoning cache in
  let assistant_message_tokens :=
    set_additional_properties assistant_message_tokens d in
  mret assistant_message_tokens.

(** The keys of the bag, each once; a [gmap] does not record the order of
    insertion, so the order of this list is not that of Python. *)
Definition additional_keys (self : t) : list string :=
  (map_to_list (additional_properties self)).*1.

Definition __getitem__ (self : t) (key : string) : result value :=
  dict_getitem (additional_properties self) key.

Definition __setitem__ (self : t) (key : string) (v : value) : t :=
  set_additional_properties self
    (dict_setitem (additional_properties self) key v).

Definition __delitem__ (self : t) (key : string) : result t :=
  d ← dict_delitem (additional_properties self) key;
  mret (set_additional_properties self d).

Definition __contains__ (self : t) (key : string) : bool :=
  dict_contains (additional_properties self) key.

(** *** In the store *)

Definition __init__st (input_ output reasoning : value) (cache : Cache)
    : M (record loc) :=
  b ← obj_new ∅;
  mret (mk input_ output reasoning cache b).

(** [from_dict] on a reference to the caller's dictionary. *)
Definition from_dict_st (src_dict : loc) : M (record loc) :=
  d ← obj_copy src_dict;
  input_ ← obj_pop d "input";
  output ← obj_pop d "output";
  reasoning ← obj_pop d "reasoning";
  cache_v ← obj_pop d "cache";
  cache ← lift (nested_from_dict cache_v);
  assistant_message_tokens ← __init__st input_ output reasoning cache;
  let assistant_message_tokens :=
    set_additional_properties assistant_message_tokens d in
  mret assistant_message_tokens.

(** The instance [o] read out of the store. *)
Definition load (σ : store) (o : record loc) : option t :=
  σ !! additional_properties o ≫= λ d,
  Some (set_additional_properties o d).

(** [to_dict] in the store: [field_dict] and the dictionary display are
    new objects. *)
Definition to_dict_st (self : record loc) : M loc :=
  let input_ := input_ self in
  let output := output self in
  let reasoning := reasoning self in
  let cache := VDict (nested_to_dict (cache self)) in
  field_dict ← obj_new ∅;
  _ ← obj_update field_dict (additional_properties self);
  fields ← obj_new
    (<["input" := input_]> (<["output" := output]>
      (<["reasoning" := reasoning]> (<["cache" := cache]> ∅))));
  _ ← obj_update field_dict fields;
  mret field_dict.

Definition __getitem__st (self : record loc) (key : string) : M value :=
  obj_getitem (additional_properties self) key.

Definition __setitem__st (self : record loc) (key : string) (v : value)
    : M unit :=
  obj_setitem (additional_properties self) key v.

Definition __delitem__st (self : record loc) (key : string) : M unit :=
  obj_delitem (additional_properties self) key.

Definition __contains__st (self : record loc) (key : string) : M bool :=
  obj_contains (additional_properties self) key.

(** *** The instances a program can build *)

Definition bag_disjoint (self : t) : Prop :=
  ∀ key, key ∈ field_names → additional_properties self !! key = None.

(** Instances built by the initializer, [from_dict], the bag accessors
    and assignments to the named attributes, where [__setitem__] is only
    called on the keys [allowed]. *)
Inductive reachable (allowed : string → Prop) : t → Prop :=
  | reach_init i o r c :
      reachable allowed (__init__ i o r c)
  | reach_from_dict src self :
      from_dict src = Ok self → reachable allowed self
  | reach_setitem self key v :
      reachable allowed self → allowed key →
      reachable allowed (__setitem__ self key v)
  | reach_delitem self key self' :
      reachable allowed self → __delitem__ self key = Ok self' →
      reachable allowed self'
  | reach_set_input_ self v :
      reachable allowed self → reachable allowed (set_input_ self v)
  | reach_set_output self v :
      reachable allowed self → reachable allowed (set_output self v)
  | reach_set_reasoning self v :
      reachable allowed self → reachable allowed (set_reasoning self v)
  | reach_set_cache self c :
      reachable allowed self → reachable allowed (set_cache self c).
End defs.
#[global] Arguments record Cache Bag : clear implicits.
#[global] Arguments t Cache : clear implicits.
End AssistantMessageTokens.

(** ** [EventMessageUpdated] *)

Module EventMessageUpdated.
Section defs.
Context {Properties : Type} `{!Codec Properties}.

(** [type_] is annotated [Literal["message.updated"]]; the initializer
    does not check it.  [Bag] is as in [AssistantMessageTokens]. *)
Record record (Bag : Type) : Type := mk {
  type_ : value;
  properties : Properties;
  additional_properties : Bag;
}.
#[global] Arguments mk {Bag} _ _ _.
#[global] Arguments type_ {Bag} _.
#[global] Arguments properties {Bag} _.
#[global] Arguments additional_properties {Bag} _.

Definition t : Type := record dict.

Definition __init__ (type_ : value) (properties : Properties) : t :=
  mk type_ properties ∅.

Definition set_type_ (self : t) (v : value) : t :=
  mk v (properties self) (additional_properties self).

Definition set_properties (self : t) (p : Properties) : t :=
  mk (type_ self) p (additional_properties self).

Definition set_additional_properties {Bag Bag'}
    (self : record Bag) (d : Bag') : record Bag' :=
  mk (type_ self) (properties self) d.

Definition field_names : list string := ["type"; "properties"].

(** The literal of the [const] check. *)
Definition const : string := "message.updated".

Definition to_dict (self : t) : dict :=
  let type_ := type_ self in
  let properties := VDict (nested_to_dict (properties self)) in
  let field_dict : dict := ∅ in
  let field_dict := dict_update field_dict (additional_properties self) in
  let field_dict :=
    dict_update field_dict
      (<["type" := type_]> (<["properties" := properties]> ∅)) in
  field_dict.

Definition from_dict (src_dict : dict) : result t :=
  let d := src_dict in
  '(type_, d) ← dict_pop d "type";
  if ne_str type_ const then Raise (ValueError const type_) else
  '(properties_v, d) ← dict_pop d "properties";
  properties ← nested_from_dict properties_v;
  let event_message_updated := __init__ type_ properties in
  let event_message_updated :=
    set_additional_properties event_message_updated d in
  mret event_message_updated.

(** The keys of the bag, each once; a [gmap] does not record the order of
    insertion, so the order of this list is not that of Python. *)
Definition additional_keys (self : t) : list string :=
  (map_to_list (additional_properties self)).*1.

Definition __getitem__ (self : t) (key : string) : result value :=
  dict_getitem (additional_properties self) key.

Definition __setitem__ (self : t) (key : string) (v : value) : t :=
  set_additional_properties self
    (dict_setitem (additional_properties self) key v).

Definition __delitem__ (self : t) (key : string) : result t :=
  d ← dict_delitem (additional_properties self) key;
  mret (set_additional_properties self d).

Definition __contains__ (self : t) (key : string) : bool :=
  dict_contains (additional_properties self) key.

(** *** In the store *)

Definition __init__st (type_ : value) (properties : Properties)
    : M (record loc) :=
  b ← obj_new ∅;
  mret (mk type_ properties b).

Definition from_dict_st (src_dict : loc) : M (record loc) :=
  d ← obj_copy src_dict;
  type_ ← obj_pop d "type";
  if ne_str type_ const then lift (Raise (ValueError const type_)) else
  properties_v ← obj_pop d "properties";
  properties ← lift (nested_from_dict properties_v);
  event_message_updated ← __init__st type_ properties;
  let event_message_updated :=
    set_additional_properties event_message_updated d in
  mret event_message_updated.

Definition load (σ : store) (o : record loc) : option t :=
  σ !! additional_properties o ≫= λ d,
  Some (set_additional_properties o d).

Definition to_dict_st (self : record loc) : M loc :=
  let type_ := type_ self in
  let properties := VDict (nested_to_dict (properties self)) in
  field_dict ← obj_new ∅;
  _ ← obj_update field_dict (additional_properties self);
  fields ← obj_new (<["type" := type_]> (<["properties" := properties]> ∅));
  _ ← obj_update field_dict fields;
  mret field_dict.

Definition __getitem__st (self : record loc) (key : string) : M value :=
  obj_getitem (additional_properties self) key.

Definition __setitem__st (self : record loc) (key : string) (v : value)
    : M unit :=
  obj_setitem (additional_properties self) key v.

Definition __delitem__st (self : record loc) (key : string) : M unit :=
  obj_delitem (additional_properties self) key.

Definition __contains__st (self : record loc) (key : string) : M bool :=
  obj_contains (additional_properties self) key.

(** *** The instances a program can build *)

Definition bag_disjoint (self : t) : Prop :=
  ∀ key, key ∈ field_names → additional_properties self !! key = None.

Inductive reachable (allowed : string → Prop) : t → Prop :=
  | reach_init ty p :
      reachable allowed (__init__ ty p)
  | reach_from_dict src self :
      from_dict src = Ok self → reachable allowed self
  | reach_setitem self key v :
      reachable allowed self → allowed key →
      reachable allowed (__setitem__ self key v)
  | reach_delitem self key self' :
      reachable allowed self → __delitem__ self key = Ok self' →
      reachable allowed self'
  | reach_set_type_ self v :
      reachable allowed self → reachable allowed (set_type_ self v)
  | reach_set_properties self p :
      reachable allowed self → reachable allowed (set_properties self p).
End defs.
#[global] Arguments record Properties Bag : clear implicits.
#[global] Arguments t Properties : clear implicits.
End EventMessageUpdated.

(** ** Nested records *)

(** Modelled from the spec: the classes of the nested attributes,
    [AssistantMessageTokensCache] and [EventMessageUpdatedProperties], are
    not among the sources.  Section 4.1 of the specification gives every
    record the same codec.  Deserialization takes a map, removes the key of
    each named field in declaration order, fails with a missing-field error
    on an absent key, and assigns the keys that remain to the extension bag.
    Serialization starts from a copy of the bag and overwrites it with the
    named fields.  [FlatRecord] is that codec for a record whose named
    fields, [names], are all primitive. *)
Module FlatRecord.
Section defs.
Variable names : list string.

Record t : Type := mk {
  fields : list value;
  additional_properties : dict;
}.

Fixpoint pop_fields (keys : list string) (d : dict)
    : result (list value * dict) :=
  match keys with
  | [] => Ok ([], d)
  | key :: keys =>
      '(v, d) ← dict_pop d key;
      '(vs, d) ← pop_fields keys d;
      mret (v :: vs, d)
  end.

Definition from_dict (src : value) : result t :=
  match src with
  | VDict src_dict =>
      '(vs, d) ← pop_fields names src_dict;
      mret (mk vs d)
  | _ => Raise TypeError
  end.

Definition to_dict (self : t) : dict :=
  let field_dict : dict := ∅ in
  let field_dict := dict_update field_dict (additional_properties self) in
  dict_update field_dict (list_to_map (zip names (fields self))).

Definition codec : Codec t :=
  {| nested_to_dict := to_dict; nested_from_dict := from_dict |}.

(** One value per named field, and no named field in the bag. *)
Definition wf (self : t) : Prop :=
  length (fields self) = length names ∧
  ∀ key, key ∈ names → additional_properties self !! key = None.
End defs.
End FlatRecord.

(** Two records of that shape, to run the codecs on. *)
Definition cache_codec : Codec FlatRecord.t :=
  FlatRecord.codec ["read"; "write"].

Definition properties_codec : Codec FlatRecord.t :=
  FlatRecord.codec ["info"].

Definition zero : value := VFloat (S754_zero false).

Definition one : value := VFloat (S754_finite false 4503599627370496 (-52)).

(** A token count with an unknown key in its bag and in the bag of its
    nested record, and the map it deserializes from. *)
Definition cache0 : FlatRecord.t :=
  FlatRecord.mk [zero; one] {["ttl" := VInt 5]}.

Definition tokens0 : AssistantMessageTokens.t FlatRecord.t :=
  AssistantMessageTokens.mk one zero zero cache0 {["extra" := VInt 42]}.

Definition tokens_map0 : dict :=
  <["input" := one]> (<["output" := zero]> (<["reasoning" := zero]>
    (<["cache" := VDict (<["read" := zero]> (<["write" := one]>
                          {["ttl" := VInt 5]}))]>
      {["extra" := VInt 42]}))).

(** An event with an unknown key, and the map it deserializes from. *)
Definition properties0 : FlatRecord.t := FlatRecord.mk [VDict ∅] ∅.

Definition event0 : EventMessageUpdated.t FlatRecord.t :=
  EventMessageUpdated.mk (VStr "message.updated") properties0
    {["extra" := VInt 42]}.

Definition event_map0 : dict :=
  <["type" := VStr "message.updated"]>
    (<["properties" := VDict {["info" := VDict ∅]}]>
      {["extra" := VInt 42]}).

(** A map with the tag of another event and no ["properties"]. *)
Definition wrong_tag_map : dict := {["type" := VStr "wrong.value"]}.

(** A store whose only object is the caller's dictionary. *)
Definition store0 (m : dict) : store := {[1%positive := m]}.

(** The two instances as objects: their bag is the dictionary at
    location 1 of [bag_store0]. *)
Definition bag_store0 : store := {[1%positive := {["extra" := VInt 42]}]}.

Definition tokens_obj0 : AssistantMessageTokens.record FlatRecord.t loc :=
  AssistantMessageTokens.mk one zero zero cache0 1%positive.

Definition event_obj0 : EventMessageUpdated.record FlatRecord.t loc :=
  EventMessageUpdated.mk (VStr "message.updated") properties0 1%positive.

(** What [from_dict] returns on a reference to the only object of
    [store0]: the instance with its bag at location 2, and the store with
    the bag and the empty dictionary of the initializer. *)
Definition tokens_obj1 : AssistantMessageTokens.record FlatRecord.t loc :=
  AssistantMessageTokens.mk one zero zero cache0 2%positive.

Definition event_obj1 : EventMessageUpdated.record FlatRecord.t loc :=
  EventMessageUpdated.mk (VStr "message.updated") properties0 2%positive.

Definition store1 (m : dict) : store :=
  <[3%positive := ∅]> (<[2%positive := {["extra" := VInt 42]}]> (store0 m)).

(** [tokens_map0] with a number where the nested map should be. *)
Definition bad_cache_map : dict := <["cache" := VInt 3]> tokens_map0.

(** * Properties *)

(** ** Dictionaries *)

Lemma dict_pop_Some (d : dict) key v :
  d !! key = Some v → dict_pop d key = Ok (v, delete key d).
Proof. intros Hk. unfold dict_pop. by rewrite Hk. Qed.

Lemma dict_pop_None (d : dict) key :
  d !! key = None → dict_pop d key = Raise (KeyError key).
Proof. intros Hk. unfold dict_pop. by rewrite Hk. Qed.

Lemma dict_pop_inv (d d' : dict) key v :
  dict_pop d key = Ok (v, d') → d !! key = Some v ∧ d' = delete key d.
Proof.
  unfold dict_pop. destruct (d !! key) as [w|]; [|done].
  intros [= -> ->]. done.
Qed.

Lemma dict_update_lookup (d other : dict) key :
  dict_update d other !! key =
    match other !! key with Some v => Some v | None => d !! key end.
Proof.
  unfold dict_update. destruct (other !! key) as [v|] eqn:Hk.
  - by apply lookup_union_Some_l.
  - by rewrite lookup_union_r.
Qed.

Lemma ne_str_false v s : ne_str v s = false ↔ v = VStr s.
Proof.
  destruct v; simpl; try (split; [done | discriminate]).
  rewrite negb_false_iff, String.eqb_eq.
  split; [by intros -> | by intros [= ->]].
Qed.

Lemma ne_str_true v s : v ≠ VStr s → ne_str v s = true.
Proof.
  intros Hv. destruct (ne_str v s) eqn:Hn; [done|].
  by apply ne_str_false in Hn.
Qed.

(** ** The store *)

Lemma obj_pop_insert (σ : store) d (m : dict) key :
  obj_pop d key (<[d := m]> σ) =
    match dict_pop m key with
    | Ok (v, m') => (Ok v, <[d := m']> σ)
    | Raise e => (Raise e, <[d := m]> σ)
    end.
Proof.
  unfold obj_pop. rewrite lookup_insert_eq.
  destruct (dict_pop m key) as [[v m']|e]; [|done].
  by rewrite insert_insert_eq.
Qed.

Lemma fresh_loc_None (σ : store) : σ !! fresh (dom σ) = None.
Proof. apply not_elem_of_dom, is_fresh. Qed.

Lemma lookup_insert_fresh (σ : store) (m : dict) l :
  is_Some (σ !! l) → <[fresh (dom σ) := m]> σ !! l = σ !! l.
Proof.
  intros Hl. apply lookup_insert_ne. intros <-.
  rewrite fresh_loc_None in Hl. by destruct Hl.
Qed.

Lemma lookup_insert_insert_fresh (σ : store) (md mb : dict) l :
  let d := fresh (dom σ) in
  let σd := <[d := md]> σ in
  is_Some (σ !! l) → <[fresh (dom σd) := mb]> σd !! l = σ !! l.
Proof.
  intros d σd Hl. subst σd d.
  rewrite lookup_insert_fresh; by rewrite lookup_insert_fresh.
Qed.

Lemma M_bind_eq {A B} (f : A → M B) (m : M A) (σ : store) :
  (m ≫= f) σ =
    match m σ with
    | (Ok a, σ') => f a σ'
    | (Raise e, σ') => (Raise e, σ')
    end.
Proof. reflexivity. Qed.

(** ** The spec-modelled nested codec *)

Lemma pop_fields_zip names vals (bag : dict) :
  NoDup names → length vals = length names →
  (∀ key, key ∈ names → bag !! key = None) →
  FlatRecord.pop_fields names (list_to_map (zip names vals) ∪ bag)
    = Ok (vals, bag).
Proof.
  intros Hnd. revert vals.
  induction Hnd as [|k ks Hk Hnd IH]; intros vals Hlen Hbag.
  - destruct vals; [|done]. simpl. by rewrite (left_id_L ∅ (∪)).
  - destruct vals as [|v vs]; [done|]. simpl in *.
    rewrite <- insert_union_l.
    rewrite (dict_pop_Some _ k v) by apply lookup_insert_eq. simpl.
    rewrite delete_insert_eq, delete_id.
    + rewrite IH; [done | lia |]. intros key Hkey. apply Hbag. by right.
    + apply lookup_union_None. split.
      * apply not_elem_of_list_to_map. rewrite fst_zip by lia. done.
      * apply Hbag. by left.
Qed.

Lemma pop_fields_inv names (m : dict) vals bag :
  FlatRecord.pop_fields names m = Ok (vals, bag) →
  list_to_map (zip names vals) ∪ bag = m ∧
  length vals = length names ∧
  ∀ key, key ∈ names → bag !! key = None.
Proof.
  revert m vals bag. induction names as [|k ks IH]; intros m vals bag; simpl.
  - intros [= <- <-]. split; [by rewrite (left_id_L ∅ (∪))|].
    split; [done|].
    intros key Hkey. by apply elem_of_nil in Hkey.
  - destruct (dict_pop m k) as [[v d]|] eqn:Hpop; [|done]. simpl.
    apply dict_pop_inv in Hpop as [Hk ->].
    destruct (FlatRecord.pop_fields ks (delete k m)) as [[vs d']|] eqn:Hrest;
      [|done]. simpl.
    intros [= <- <-]. apply IH in Hrest as (Hm & Hlen & Hbag). simpl.
    split; [|split].
    + rewrite <- insert_union_l, Hm, insert_delete_eq. by apply insert_id.
    + by rewrite Hlen.
    + intros key [->|Hkey]%elem_of_cons; [|by apply Hbag].
      assert (Hd : (list_to_map (zip ks vs) ∪ d' : dict) !! k = None)
        by (rewrite Hm; apply lookup_delete_eq).
      by apply lookup_union_None in Hd as [_ ?].
Qed.

Lemma flat_roundtrips names (c : FlatRecord.t) :
  NoDup names → FlatRecord.wf names c →
  @roundtrips _ (FlatRecord.codec names) c.
Proof.
  intros Hnd [Hlen Hbag]. unfold roundtrips. simpl.
  unfold FlatRecord.to_dict, dict_update.
  rewrite (right_id_L ∅ (∪)), pop_fields_zip by done. simpl. by destruct c.
Qed.

Lemma flat_reserializes names (v : value) :
  @reserializes _ (FlatRecord.codec names) v.
Proof.
  intros c. simpl. destruct v; try done. simpl.
  destruct (FlatRecord.pop_fields names m) as [[vs d]|] eqn:Hpop; [|done].
  simpl. intros [= <-]. apply pop_fields_inv in Hpop as (Hm & _ & _).
  unfold FlatRecord.to_dict, dict_update. simpl.
  by rewrite (right_id_L ∅ (∪)), Hm.
Qed.

(** ** [AssistantMessageTokens]: serialization and deserialization *)

Section tokens.
Context {Cache : Type} `{!Codec Cache}.
Import AssistantMessageTokens.

Lemma tokens_to_dict_lookup (self : t Cache) key :
  to_dict self !! key =
    if decide (key = "input") then Some (input_ self)
    else if decide (key = "output") then Some (output self)
    else if decide (key = "reasoning") then Some (reasoning self)
    else if decide (key = "cache")
      then Some (VDict (nested_to_dict (cache self)))
    else additional_properties self !! key.
Proof.
  unfold to_dict. rewrite !dict_update_lookup, lookup_empty.
  repeat case_decide; simplify_map_eq; try done.
  by destruct (additional_properties self !! key).
Qed.

Lemma tokens_from_dict_Some (m : dict) i o r cv c :
  m !! "input" = Some i → m !! "output" = Some o →
  m !! "reasoning" = Some r → m !! "cache" = Some cv →
  nested_from_dict cv = Ok c →
  from_dict m =
    Ok (mk i o r c
      (delete "cache" (delete "reasoning" (delete "output"
        (delete "input" m))))).
Proof.
  intros Hi Ho Hr Hc Hn. unfold from_dict.
  rewrite (dict_pop_Some _ _ i) by done. simpl.
  rewrite (dict_pop_Some _ _ o) by by simplify_map_eq. simpl.
  rewrite (dict_pop_Some _ _ r) by by simplify_map_eq. simpl.
  rewrite (dict_pop_Some _ _ cv) by by simplify_map_eq. simpl.
  by rewrite Hn.
Qed.

Lemma tokens_from_dict_inv (m : dict) (self : t Cache) :
  from_dict m = Ok self →
  m !! "input" = Some (input_ self) ∧
  m !! "output" = Some (output self) ∧
  m !! "reasoning" = Some (reasoning self) ∧
  (∃ cv, m !! "cache" = Some cv ∧ nested_from_dict cv = Ok (cache self)) ∧
  additional_properties self =
    delete "cache" (delete "reasoning" (delete "output" (delete "input" m))).
Proof.
  unfold from_dict.
  destruct (dict_pop m "input") as [[i d1]|] eqn:H1; [|done]. simpl.
  destruct (dict_pop d1 "output") as [[o d2]|] eqn:H2; [|done]. simpl.
  destruct (dict_pop d2 "reasoning") as [[r d3]|] eqn:H3; [|done]. simpl.
  destruct (dict_pop d3 "cache") as [[cv d4]|] eqn:H4; [|done]. simpl.
  destruct (nested_from_dict cv) as [c|] eqn:H5; [|done]. simpl.
  intros [= <-]. simpl.
  apply dict_pop_inv in H1 as [H1 ->]. apply dict_pop_inv in H2 as [H2 ->].
  apply dict_pop_inv in H3 as [H3 ->]. apply dict_pop_inv in H4 as [H4 ->].
  simplify_map_eq. eauto 10.
Qed.

Lemma tokens_field_names_elem key :
  key ∈ field_names ↔
  key = "input" ∨ key = "output" ∨ key = "reasoning" ∨ key = "cache".
Proof. unfold field_names. rewrite !elem_of_cons, elem_of_nil. tauto. Qed.

Lemma tokens_bag_of_deletes (m : dict) key :
  delete "cache" (delete "reasoning" (delete "output" (delete "input" m)))
    !! key =
  if decide (key ∈ field_names) then None else m !! key.
Proof.
  case_decide as Hk; rewrite tokens_field_names_elem in Hk.
  - destruct Hk as [->|[->|[->| ->]]]; by simplify_map_eq.
  - rewrite !lookup_delete_ne by (intros <-; tauto). done.
Qed.
(** [from_dict_st] pops from a new object [d], a copy of the caller's:
    it raises what [from_dict] raises on the contents of the caller's
    dictionary, and where [from_dict] returns an instance, it returns that
    instance with [d] as its bag. *)
Lemma tokens_from_dict_st_spec (σ : store) src (m : dict) :
  σ !! src = Some m →
  let d := fresh (dom σ) in
  ∃ md, let σd := <[d := md]> σ in
  match from_dict (Cache := Cache) m with
  | Ok self =>
      from_dict_st (Cache := Cache) src σ =
        (Ok (set_additional_properties self d),
         <[fresh (dom σd) := ∅]> σd) ∧
      md = additional_properties self
  | Raise e => from_dict_st (Cache := Cache) src σ = (Raise e, σd)
  end.
Proof.
  intros Hsrc d. unfold from_dict_st, from_dict.
  rewrite M_bind_eq. unfold obj_copy. rewrite Hsrc. unfold obj_new. fold d.
  rewrite M_bind_eq, obj_pop_insert.
  destruct (dict_pop m "input") as [[i m1]|e] eqn:H1; simpl; [|by exists m].
  rewrite M_bind_eq, obj_pop_insert.
  destruct (dict_pop m1 "output") as [[o m2]|e] eqn:H2; simpl; [|by exists m1].
  rewrite M_bind_eq, obj_pop_insert.
  destruct (dict_pop m2 "reasoning") as [[r m3]|e] eqn:H3; simpl;
    [|by exists m2].
  rewrite M_bind_eq, obj_pop_insert.
  destruct (dict_pop m3 "cache") as [[cv m4]|e] eqn:H4; simpl; [|by exists m3].
  rewrite M_bind_eq. unfold lift.
  destruct (nested_from_dict cv) as [c|e] eqn:H5; simpl; [|by exists m4].
  by exists m4.
Qed.

Lemma tokens_from_dict_st_preserves (σ : store) src :
  preserves (from_dict_st (Cache := Cache) src) σ.
Proof.
  intros l Hl. destruct (σ !! src) as [m|] eqn:Hsrc.
  - destruct (tokens_from_dict_st_spec σ src m Hsrc) as [md Hspec].
    simpl in Hspec. destruct (from_dict m) as [self|e].
    + destruct Hspec as [-> _]. simpl.
      by apply lookup_insert_insert_fresh.
    + rewrite Hspec. simpl. by apply lookup_insert_fresh.
  - unfold from_dict_st. rewrite M_bind_eq. unfold obj_copy. by rewrite Hsrc.
Qed.

Lemma tokens_from_dict_st_refines (σ : store) src (m : dict) :
  σ !! src = Some m →
  match from_dict_st (Cache := Cache) src σ with
  | (Ok o, σ') => ∃ self, from_dict m = Ok self ∧ load σ' o = Some self
  | (Raise e, _) => from_dict m = Raise e
  end.
Proof.
  intros Hsrc. destruct (tokens_from_dict_st_spec σ src m Hsrc) as [md Hspec].
  simpl in Hspec. destruct (from_dict m) as [self|e].
  - destruct Hspec as [-> ->]. exists self. split; [done|].
    unfold load. simpl.
    rewrite lookup_insert_ne, lookup_insert_eq; [by destruct self|].
    intros Heq.
    pose proof (fresh_loc_None
      (<[fresh (dom σ) := additional_properties self]> σ)) as Hf.
    by rewrite Heq, lookup_insert_eq in Hf.
  - by rewrite Hspec.
Qed.
End tokens.

(** ** [EventMessageUpdated]: serialization and deserialization *)

Section event.
Context {Properties : Type} `{!Codec Properties}.
Import EventMessageUpdated.

Lemma event_to_dict_lookup (self : t Properties) key :
  to_dict self !! key =
    if decide (key = "type") then Some (type_ self)
    else if decide (key = "properties")
      then Some (VDict (nested_to_dict (properties self)))
    else additional_properties self !! key.
Proof.
  unfold to_dict. rewrite !dict_update_lookup, lookup_empty.
  repeat case_decide; simplify_map_eq; try done.
  by destruct (additional_properties self !! key).
Qed.

(** What [from_dict] does once the tag check has passed. *)
Lemma event_from_dict_tag_ok (m : dict) :
  m !! "type" = Some (VStr const) →
  from_dict m =
    '(properties_v, d) ← dict_pop (delete "type" m) "properties";
    properties ← nested_from_dict properties_v;
    mret (mk (VStr const) properties d).
Proof.
  intros Ht. unfold from_dict. by rewrite (dict_pop_Some _ _ _ Ht).
Qed.

Lemma event_from_dict_tag_wrong (m : dict) v :
  m !! "type" = Some v → v ≠ VStr const →
  from_dict m = Raise (ValueError const v).
Proof.
  intros Ht Hv. unfold from_dict. rewrite (dict_pop_Some _ _ _ Ht). simpl.
  by rewrite ne_str_true.
Qed.

Lemma event_from_dict_no_tag (m : dict) :
  m !! "type" = None → from_dict m = Raise (KeyError "type").
Proof. intros Ht. unfold from_dict. by rewrite dict_pop_None. Qed.

Lemma event_from_dict_inv (m : dict) (self : t Properties) :
  from_dict m = Ok self →
  type_ self = VStr const ∧
  m !! "type" = Some (type_ self) ∧
  (∃ pv, m !! "properties" = Some pv ∧
         nested_from_dict pv = Ok (properties self)) ∧
  additional_properties self = delete "properties" (delete "type" m).
Proof.
  unfold from_dict.
  destruct (dict_pop m "type") as [[ty d1]|] eqn:H1; [|done]. simpl.
  destruct (ne_str ty const) eqn:Hty; [done|]. apply ne_str_false in Hty as ->.
  destruct (dict_pop d1 "properties") as [[pv d2]|] eqn:H2; [|done]. simpl.
  destruct (nested_from_dict pv) as [p|] eqn:H3; [|done]. simpl.
  intros [= <-]. simpl.
  apply dict_pop_inv in H1 as [H1 ->]. apply dict_pop_inv in H2 as [H2 ->].
  simplify_map_eq. eauto 10.
Qed.

Lemma event_field_names_elem key :
  key ∈ field_names ↔ key = "type" ∨ key = "properties".
Proof. unfold field_names. rewrite !elem_of_cons, elem_of_nil. tauto. Qed.

Lemma event_bag_of_deletes (m : dict) key :
  delete "properties" (delete "type" m) !! key =
  if decide (key ∈ field_names) then None else m !! key.
Proof.
  case_decide as Hk; rewrite event_field_names_elem in Hk.
  - destruct Hk as [->| ->]; by simplify_map_eq.
  - rewrite !lookup_delete_ne by (intros <-; tauto). done.
Qed.
Lemma event_from_dict_st_spec (σ : store) src (m : dict) :
  σ !! src = Some m →
  let d := fresh (dom σ) in
  ∃ md, let σd := <[d := md]> σ in
  match from_dict (Properties := Properties) m with
  | Ok self =>
      from_dict_st (Properties := Properties) src σ =
        (Ok (set_additional_properties self d),
         <[fresh (dom σd) := ∅]> σd) ∧
      md = additional_properties self
  | Raise e => from_dict_st (Properties := Properties) src σ = (Raise e, σd)
  end.
Proof.
  intros Hsrc d. unfold from_dict_st, from_dict.
  rewrite M_bind_eq. unfold obj_copy. rewrite Hsrc. unfold obj_new. fold d.
  rewrite M_bind_eq, obj_pop_insert.
  destruct (dict_pop m "type") as [[ty m1]|e] eqn:H1; simpl; [|by exists m].
  destruct (ne_str ty const) eqn:Hty; [by exists m1|].
  rewrite M_bind_eq, obj_pop_insert.
  destruct (dict_pop m1 "properties") as [[pv m2]|e] eqn:H2; simpl;
    [|by exists m1].
  rewrite M_bind_eq. unfold lift.
  destruct (nested_from_dict pv) as [p|e] eqn:H3; simpl; [|by exists m2].
  by exists m2.
Qed.

Lemma event_from_dict_st_preserves (σ : store) src :
  preserves (from_dict_st (Properties := Properties) src) σ.
Proof.
  intros l Hl. destruct (σ !! src) as [m|] eqn:Hsrc.
  - destruct (event_from_dict_st_spec σ src m Hsrc) as [md Hspec].
    simpl in Hspec. destruct (from_dict m) as [self|e].
    + destruct Hspec as [-> _]. simpl.
      by apply lookup_insert_insert_fresh.
    + rewrite Hspec. simpl. by apply lookup_insert_fresh.
  - unfold from_dict_st. rewrite M_bind_eq. unfold obj_copy. by rewrite Hsrc.
Qed.

Lemma event_from_dict_st_refines (σ : store) src (m : dict) :
  σ !! src = Some m →
  match from_dict_st (Properties := Properties) src σ with
  | (Ok o, σ') => ∃ self, from_dict m = Ok self ∧ load σ' o = Some self
  | (Raise e, _) => from_dict m = Raise e
  end.
Proof.
  intros Hsrc. destruct (event_from_dict_st_spec σ src m Hsrc) as [md Hspec].
  simpl in Hspec. destruct (from_dict m) as [self|e].
  - destruct Hspec as [-> ->]. exists self. split; [done|].
    unfold load. simpl.
    rewrite lookup_insert_ne, lookup_insert_eq; [by destruct self|].
    intros Heq.
    pose proof (fresh_loc_None
      (<[fresh (dom σ) := additional_properties self]> σ)) as Hf.
    by rewrite Heq, lookup_insert_eq in Hf.
  - by rewrite Hspec.
Qed.
End event.

(** ** The bag accessors *)

Lemma dict_accessors (d : dict) key :
  (d !! key = None → dict_getitem d key = Raise (KeyError key)) ∧
  (∀ v, d !! key = Some v → dict_getitem d key = Ok v) ∧
  (d !! key = None → dict_delitem d key = Raise (KeyError key)) ∧
  (is_Some (d !! key) → dict_delitem d key = Ok (delete key d)) ∧
  (dict_contains d key = true ↔ is_Some (d !! key)).
Proof.
  unfold dict_getitem, dict_delitem, dict_contains.
  rewrite bool_decide_eq_true.
  destruct (d !! key) as [w|]; repeat split; try done; try congruence.
  all: by intros [? ?].
Qed.

Lemma delete_exactly (d : dict) key key' :
  delete key d !! key' = if decide (key' = key) then None else d !! key'.
Proof. case_decide; by simplify_map_eq. Qed.

(** ** The claims *)

Section claims.
Context {Cache Properties : Type} `{!Codec Cache} `{!Codec Properties}.

(** C1: a record whose bag shares no key with the named fields, whose tag
    (for [EventMessageUpdated]) is the literal, and whose nested record
    survives its own round trip, is given back by [from_dict] on its
    [to_dict]: equal in every named field, in the nested record and in the
    bag. *)
Theorem roundtrip_from_dict_to_dict :
  (∀ R : AssistantMessageTokens.t Cache,
     AssistantMessageTokens.bag_disjoint R →
     roundtrips (AssistantMessageTokens.cache R) →
     AssistantMessageTokens.from_dict (AssistantMessageTokens.to_dict R)
       = Ok R) ∧
  (∀ R : EventMessageUpdated.t Properties,
     EventMessageUpdated.bag_disjoint R →
     EventMessageUpdated.type_ R = VStr "message.updated" →
     roundtrips (EventMessageUpdated.properties R) →
     EventMessageUpdated.from_dict (EventMessageUpdated.to_dict R) = Ok R).
Proof.
  split.
  - intros R Hbag Hrt.
    rewrite (tokens_from_dict_Some _ (AssistantMessageTokens.input_ R)
      (AssistantMessageTokens.output R) (AssistantMessageTokens.reasoning R)
      (VDict (nested_to_dict (AssistantMessageTokens.cache R)))
      (AssistantMessageTokens.cache R));
      [| by rewrite tokens_to_dict_lookup .. | exact Hrt].
    f_equal. destruct R as [i o r c bag]; simpl in *. f_equal.
    apply map_eq; intros key. rewrite tokens_bag_of_deletes.
    case_decide as Hk; [symmetry; by apply Hbag|].
    rewrite tokens_to_dict_lookup. simpl.
    rewrite tokens_field_names_elem in Hk.
    repeat case_decide; tauto.
  - intros R Hbag Hty Hrt. rewrite event_from_dict_tag_ok
      by (rewrite event_to_dict_lookup; by rewrite Hty).
    rewrite (dict_pop_Some _ _
      (VDict (nested_to_dict (EventMessageUpdated.properties R))))
      by (rewrite lookup_delete_ne by done; by rewrite event_to_dict_lookup).
    simpl. unfold roundtrips in Hrt. rewrite Hrt. simpl. f_equal.
    destruct R as [ty p bag]; simpl in *. subst ty. f_equal.
    apply map_eq; intros key. rewrite event_bag_of_deletes.
    case_decide as Hk; [symmetry; by apply Hbag|].
    rewrite event_to_dict_lookup. simpl.
    rewrite event_field_names_elem in Hk.
    repeat case_decide; tauto.
Qed.

(** C2: when the input map holds a string under ["type"],
    [EventMessageUpdated.from_dict] raises the [ValueError] of the tag
    check, and so builds no record, if the string is not
    ["message.updated"]; if it is, the check passes and deserialization
    goes on to pop ["properties"]. *)
Theorem from_dict_tag_enforcement (m : dict) (s : string) :
  m !! "type" = Some (VStr s) →
  (s ≠ "message.updated" →
   EventMessageUpdated.from_dict (Properties := Properties) m
     = Raise (ValueError "message.updated" (VStr s))) ∧
  (s = "message.updated" →
   EventMessageUpdated.from_dict (Properties := Properties) m =
     '(properties_v, d) ← dict_pop (delete "type" m) "properties";
     properties ← nested_from_dict properties_v;
     mret (EventMessageUpdated.mk (VStr s) properties d)).
Proof.
  intros Ht. split.
  - intros Hs. apply event_from_dict_tag_wrong; [done|]. by intros [= ->].
  - intros ->. by apply event_from_dict_tag_ok.
Qed.

(** C3: in the map [to_dict] returns, each named-field key holds the
    serialized named field, whatever the bag holds under that key. *)
Theorem to_dict_named_fields_win :
  (∀ self : AssistantMessageTokens.t Cache,
     let out := AssistantMessageTokens.to_dict self in
     out !! "input" = Some (AssistantMessageTokens.input_ self) ∧
     out !! "output" = Some (AssistantMessageTokens.output self) ∧
     out !! "reasoning" = Some (AssistantMessageTokens.reasoning self) ∧
     out !! "cache" =
       Some (VDict (nested_to_dict (AssistantMessageTokens.cache self)))) ∧
  (∀ self : EventMessageUpdated.t Properties,
     let out := EventMessageUpdated.to_dict self in
     out !! "type" = Some (EventMessageUpdated.type_ self) ∧
     out !! "properties" =
       Some (VDict (nested_to_dict (EventMessageUpdated.properties self)))).
Proof.
  split; intros self out; subst out.
  - by rewrite !tokens_to_dict_lookup.
  - by rewrite !event_to_dict_lookup.
Qed.

(** C4, as the code has it: [AssistantMessageTokens.from_dict] raises the
    [KeyError] of an absent required key whenever one is absent;
    [EventMessageUpdated.from_dict] raises the [KeyError] of ["type"] when
    it is absent, and that of ["properties"] when it is absent and the tag
    check has passed; when ["type"] holds another value than the literal,
    it raises the [ValueError] of the tag check, whether or not
    ["properties"] is present. *)
Theorem from_dict_missing_field :
  (∀ m : dict,
     (∃ key,
        key ∈ AssistantMessageTokens.field_names ∧ m !! key = None) →
     ∃ key, key ∈ AssistantMessageTokens.field_names ∧ m !! key = None ∧
       AssistantMessageTokens.from_dict (Cache := Cache) m
         = Raise (KeyError key)) ∧
  (∀ m : dict,
     m !! "type" = None →
     EventMessageUpdated.from_dict (Properties := Properties) m
       = Raise (KeyError "type")) ∧
  (∀ m : dict,
     m !! "type" = Some (VStr "message.updated") →
     m !! "properties" = None →
     EventMessageUpdated.from_dict (Properties := Properties) m
       = Raise (KeyError "properties")) ∧
  (∀ (m : dict) (v : value),
     m !! "type" = Some v → v ≠ VStr "message.updated" →
     EventMessageUpdated.from_dict (Properties := Properties) m
       = Raise (ValueError "message.updated" v)).
Proof.
  split; [|split; [|split]]; cycle 3.
  { intros m v Ht Hv. by apply event_from_dict_tag_wrong. }
  - intros m (key0 & Hin & Hnone).
    unfold AssistantMessageTokens.from_dict.
    setoid_rewrite tokens_field_names_elem.
    destruct (m !! "input") as [i|] eqn:Hi; cycle 1.
    { exists "input". rewrite dict_pop_None by done. tauto. }
    destruct (m !! "output") as [o|] eqn:Ho; cycle 1.
    { exists "output". rewrite (dict_pop_Some _ _ i) by done. simpl.
      rewrite dict_pop_None by by simplify_map_eq. tauto. }
    destruct (m !! "reasoning") as [r|] eqn:Hr; cycle 1.
    { exists "reasoning". rewrite (dict_pop_Some _ _ i) by done. simpl.
      rewrite (dict_pop_Some _ _ o) by by simplify_map_eq. simpl.
      rewrite dict_pop_None by by simplify_map_eq. tauto. }
    destruct (m !! "cache") as [c|] eqn:Hc; cycle 1.
    { exists "cache". rewrite (dict_pop_Some _ _ i) by done. simpl.
      rewrite (dict_pop_Some _ _ o) by by simplify_map_eq. simpl.
      rewrite (dict_pop_Some _ _ r) by by simplify_map_eq. simpl.
      rewrite dict_pop_None by by simplify_map_eq. tauto. }
    exfalso. apply tokens_field_names_elem in Hin.
    destruct Hin as [->|[->|[->| ->]]]; congruence.
  - intros m Ht. by apply event_from_dict_no_tag.
  - intros m Ht Hp. rewrite event_from_dict_tag_ok by done.
    rewrite dict_pop_None; [done|]. by rewrite lookup_delete_ne.
Qed.

(** C6: after a successful [from_dict], the bag holds exactly the entries
    of the input map whose keys are not named-field keys; [to_dict] of the
    result agrees with the input map on every key but that of the nested
    record, and is the input map itself when the nested codec gives back
    the nested map it read. *)
Theorem from_dict_bag_is_rest :
  (∀ (m : dict) (self : AssistantMessageTokens.t Cache),
     AssistantMessageTokens.from_dict m = Ok self →
     (∀ key, AssistantMessageTokens.additional_properties self !! key =
        if decide (key ∈ AssistantMessageTokens.field_names)
        then None else m !! key) ∧
     (∀ key, key ≠ "cache" →
        AssistantMessageTokens.to_dict self !! key = m !! key) ∧
     ((∀ cv, m !! "cache" = Some cv → reserializes (T := Cache) cv) →
      AssistantMessageTokens.to_dict self = m)) ∧
  (∀ (m : dict) (self : EventMessageUpdated.t Properties),
     EventMessageUpdated.from_dict m = Ok self →
     (∀ key, EventMessageUpdated.additional_properties self !! key =
        if decide (key ∈ EventMessageUpdated.field_names)
        then None else m !! key) ∧
     (∀ key, key ≠ "properties" →
        EventMessageUpdated.to_dict self !! key = m !! key) ∧
     ((∀ pv, m !! "properties" = Some pv →
         reserializes (T := Properties) pv) →
      EventMessageUpdated.to_dict self = m)).
Proof.
  split.
  - intros m self (Hi & Ho & Hr & (cv & Hc & Hn) & Hbag)%tokens_from_dict_inv.
    assert (Hrest : ∀ key, key ≠ "cache" →
      AssistantMessageTokens.to_dict self !! key = m !! key).
    { intros key Hkey. rewrite tokens_to_dict_lookup.
      repeat case_decide; simplify_eq; try done.
      rewrite Hbag, tokens_bag_of_deletes.
      case_decide as Hk; [|done].
      apply tokens_field_names_elem in Hk. tauto. }
    split; [|split; [done|]].
    + intros key. by rewrite Hbag, tokens_bag_of_deletes.
    + intros Hre. apply map_eq; intros key.
      destruct (decide (key = "cache")) as [->|Hkey]; [|by apply Hrest].
      rewrite tokens_to_dict_lookup; simpl. rewrite Hc. f_equal.
      by apply (Hre cv Hc).
  - intros m self (Hty & Ht & (pv & Hp & Hn) & Hbag)%event_from_dict_inv.
    assert (Hrest : ∀ key, key ≠ "properties" →
      EventMessageUpdated.to_dict self !! key = m !! key).
    { intros key Hkey. rewrite event_to_dict_lookup.
      repeat case_decide; simplify_eq; try done.
      rewrite Hbag, event_bag_of_deletes.
      case_decide as Hk; [|done].
      apply event_field_names_elem in Hk. tauto. }
    split; [|split; [done|]].
    + intros key. by rewrite Hbag, event_bag_of_deletes.
    + intros Hre. apply map_eq; intros key.
      destruct (decide (key = "properties")) as [->|Hkey]; [|by apply Hrest].
      rewrite event_to_dict_lookup; simpl. rewrite Hp. f_equal.
      by apply (Hre pv Hp).
Qed.

(** C7, as the code has it: an instance built by the initializer,
    [from_dict], [__delitem__], assignments to the named attributes and
    [__setitem__] on keys that are not named-field keys has no named-field
    key in its bag.  ([__setitem__] checks nothing about its key.) *)
Theorem reachable_bag_disjoint :
  (∀ self : AssistantMessageTokens.t Cache,
     AssistantMessageTokens.reachable
       (λ key, key ∉ AssistantMessageTokens.field_names) self →
     AssistantMessageTokens.bag_disjoint self) ∧
  (∀ self : EventMessageUpdated.t Properties,
     EventMessageUpdated.reachable
       (λ key, key ∉ EventMessageUpdated.field_names) self →
     EventMessageUpdated.bag_disjoint self).
Proof.
  split.
  - intros self Hreach.
    induction Hreach as [i o r c|src self Hfrom|self key v _ IH Hkey
      |self key self' _ IH Hdel|self v _ IH|self v _ IH|self v _ IH
      |self c _ IH]; try exact IH.
    + intros key _. apply lookup_empty.
    + apply tokens_from_dict_inv in Hfrom as (_ & _ & _ & _ & Hbag).
      intros key Hk. rewrite Hbag, tokens_bag_of_deletes. by case_decide.
    + intros key' Hk'. simpl. unfold dict_setitem.
      rewrite lookup_insert_ne; [by apply IH | by intros ->].
    + unfold AssistantMessageTokens.__delitem__, dict_delitem in Hdel.
      destruct (AssistantMessageTokens.additional_properties self !! key);
        [|done].
      injection Hdel as <-. intros key' Hk'. simpl.
      rewrite delete_exactly. case_decide; [done | by apply IH].
  - intros self Hreach.
    induction Hreach as [ty p|src self Hfrom|self key v _ IH Hkey
      |self key self' _ IH Hdel|self v _ IH|self p _ IH]; try exact IH.
    + intros key _. apply lookup_empty.
    + apply event_from_dict_inv in Hfrom as (_ & _ & _ & Hbag).
      intros key Hk. rewrite Hbag, event_bag_of_deletes. by case_decide.
    + intros key' Hk'. simpl. unfold dict_setitem.
      rewrite lookup_insert_ne; [by apply IH | by intros ->].
    + unfold EventMessageUpdated.__delitem__, dict_delitem in Hdel.
      destruct (EventMessageUpdated.additional_properties self !! key);
        [|done].
      injection Hdel as <-. intros key' Hk'. simpl.
      rewrite delete_exactly. case_decide; [done | by apply IH].
Qed.

(** C8: on every instance, [__getitem__] raises [KeyError] on a key absent
    from the bag and returns the stored value of a present key;
    [__delitem__] raises [KeyError] on an absent key and removes exactly
    the entry of a present key; [__setitem__] always succeeds and inserts
    or overwrites; [__contains__] is a total test of membership.  The
    named attributes are left as they were. *)
Theorem bag_accessors_map_semantics :
  (∀ (self : AssistantMessageTokens.t Cache) (key : string),
     let bag := AssistantMessageTokens.additional_properties self in
     (bag !! key = None →
      AssistantMessageTokens.__getitem__ self key = Raise (KeyError key)) ∧
     (∀ v, bag !! key = Some v →
      AssistantMessageTokens.__getitem__ self key = Ok v) ∧
     (bag !! key = None →
      AssistantMessageTokens.__delitem__ self key = Raise (KeyError key)) ∧
     (is_Some (bag !! key) →
      AssistantMessageTokens.__delitem__ self key =
        Ok (AssistantMessageTokens.set_additional_properties self
              (delete key bag)) ∧
      ∀ key', delete key bag !! key' =
        if decide (key' = key) then None else bag !! key') ∧
     (∀ v, AssistantMessageTokens.__setitem__ self key v =
        AssistantMessageTokens.set_additional_properties self
          (<[key := v]> bag) ∧
      ∀ key', <[key := v]> bag !! key' =
        if decide (key' = key) then Some v else bag !! key') ∧
     (AssistantMessageTokens.__contains__ self key = true ↔
      is_Some (bag !! key))) ∧
  (∀ (self : EventMessageUpdated.t Properties) (key : string),
     let bag := EventMessageUpdated.additional_properties self in
     (bag !! key = None →
      EventMessageUpdated.__getitem__ self key = Raise (KeyError key)) ∧
     (∀ v, bag !! key = Some v →
      EventMessageUpdated.__getitem__ self key = Ok v) ∧
     (bag !! key = None →
      EventMessageUpdated.__delitem__ self key = Raise (KeyError key)) ∧
     (is_Some (bag !! key) →
      EventMessageUpdated.__delitem__ self key =
        Ok (EventMessageUpdated.set_additional_properties self
              (delete key bag)) ∧
      ∀ key', delete key bag !! key' =
        if decide (key' = key) then None else bag !! key') ∧
     (∀ v, EventMessageUpdated.__setitem__ self key v =
        EventMessageUpdated.set_additional_properties self
          (<[key := v]> bag) ∧
      ∀ key', <[key := v]> bag !! key' =
        if decide (key' = key) then Some v else bag !! key') ∧
     (EventMessageUpdated.__contains__ self key = true ↔
      is_Some (bag !! key))) .
Proof.
  split; intros self key bag;
    destruct (dict_accessors bag key) as (Hg0 & Hg1 & Hd0 & Hd1 & Hc).
  - unfold AssistantMessageTokens.__getitem__,
      AssistantMessageTokens.__delitem__,
      AssistantMessageTokens.__setitem__,
      AssistantMessageTokens.__contains__. fold bag.
    split_and!; try done.
    + intros Hk. by rewrite Hd0.
    + intros Hk. rewrite Hd1 by done. split; [done|].
      intros key'. apply delete_exactly.
    + intros v. split; [done|]. intros key'.
      rewrite lookup_insert. repeat case_decide; congruence.
  - unfold EventMessageUpdated.__getitem__,
      EventMessageUpdated.__delitem__,
      EventMessageUpdated.__setitem__,
      EventMessageUpdated.__contains__. fold bag.
    split_and!; try done.
    + intros Hk. by rewrite Hd0.
    + intros Hk. rewrite Hd1 by done. split; [done|].
      intros key'. apply delete_exactly.
    + intros v. split; [done|]. intros key'.
      rewrite lookup_insert. repeat case_decide; congruence.
Qed.

(** C5: whatever the outcome of [from_dict], the caller's dictionary holds
    after the call the key-value pairs it held before, as does every other
    dictionary of the store: the pops are made on a copy. *)
Theorem from_dict_leaves_source_unchanged :
  (∀ (σ : store) (src_dict : loc) (m : dict),
     σ !! src_dict = Some m →
     let σ' :=
       (AssistantMessageTokens.from_dict_st (Cache := Cache) src_dict σ).2 in
     σ' !! src_dict = Some m ∧
     ∀ l, is_Some (σ !! l) → σ' !! l = σ !! l) ∧
  (∀ (σ : store) (src_dict : loc) (m : dict),
     σ !! src_dict = Some m →
     let σ' :=
       (EventMessageUpdated.from_dict_st (Properties := Properties)
          src_dict σ).2 in
     σ' !! src_dict = Some m ∧
     ∀ l, is_Some (σ !! l) → σ' !! l = σ !! l).
Proof.
  split; intros σ src_dict m Hsrc σ'; subst σ'.
  - pose proof (tokens_from_dict_st_preserves (Cache := Cache) σ src_dict)
      as Hpre.
    split; [|exact Hpre]. rewrite <- Hsrc. apply Hpre. by rewrite Hsrc.
  - pose proof (event_from_dict_st_preserves (Properties := Properties)
      σ src_dict) as Hpre.
    split; [|exact Hpre]. rewrite <- Hsrc. apply Hpre. by rewrite Hsrc.
Qed.

(** C9: the initializer is defined on all attribute values, keeps them as
    they are, and gives the instance an empty bag; in the store, it returns
    an instance whose bag is a new, empty dictionary. *)
Theorem init_empty_bag :
  (∀ (i o r : value) (c : Cache),
     let self := AssistantMessageTokens.__init__ i o r c in
     AssistantMessageTokens.additional_properties self = ∅ ∧
     AssistantMessageTokens.input_ self = i ∧
     AssistantMessageTokens.output self = o ∧
     AssistantMessageTokens.reasoning self = r ∧
     AssistantMessageTokens.cache self = c ∧
     ∀ σ : store, ∃ ob σ',
       AssistantMessageTokens.__init__st i o r c σ = (Ok ob, σ') ∧
       σ !! AssistantMessageTokens.additional_properties ob = None ∧
       AssistantMessageTokens.load σ' ob = Some self) ∧
  (∀ (ty : value) (p : Properties),
     let self := EventMessageUpdated.__init__ ty p in
     EventMessageUpdated.additional_properties self = ∅ ∧
     EventMessageUpdated.type_ self = ty ∧
     EventMessageUpdated.properties self = p ∧
     ∀ σ : store, ∃ ob σ',
       EventMessageUpdated.__init__st ty p σ = (Ok ob, σ') ∧
       σ !! EventMessageUpdated.additional_properties ob = None ∧
       EventMessageUpdated.load σ' ob = Some self).
Proof.
  split.
  - intros i o r c self. split_and!; try done.
    intros σ. eexists _, _. split; [reflexivity|]. simpl.
    split; [apply fresh_loc_None|].
    unfold AssistantMessageTokens.load. simpl. by rewrite lookup_insert_eq.
  - intros ty p self. split_and!; try done.
    intros σ. eexists _, _. split; [reflexivity|]. simpl.
    split; [apply fresh_loc_None|].
    unfold EventMessageUpdated.load. simpl. by rewrite lookup_insert_eq.
Qed.

(** C10: [EventMessageUpdated.from_dict] checks the tag before it touches
    ["properties"]: a map holding under ["type"] a value other than
    ["message.updated"] raises the [ValueError] of the tag check, also when
    ["properties"] is absent; a map without ["type"] raises the [KeyError]
    of ["type"]. *)
Theorem from_dict_tag_checked_first (m : dict) :
  (∀ v, m !! "type" = Some v → v ≠ VStr "message.updated" →
     EventMessageUpdated.from_dict (Properties := Properties) m
       = Raise (ValueError "message.updated" v)) ∧
  (∀ v, m !! "type" = Some v → v ≠ VStr "message.updated" →
     m !! "properties" = None →
     EventMessageUpdated.from_dict (Properties := Properties) m
       = Raise (ValueError "message.updated" v)) ∧
  (m !! "type" = None →
     EventMessageUpdated.from_dict (Properties := Properties) m
       = Raise (KeyError "type")).
Proof.
  split_and!.
  - intros v Ht Hv. by apply event_from_dict_tag_wrong.
  - intros v Ht Hv _. by apply event_from_dict_tag_wrong.
  - apply event_from_dict_no_tag.
Qed.
End claims.

(** ** The claims on concrete records *)

Lemma roundtrip_from_dict_to_dict_witness :
  (AssistantMessageTokens.bag_disjoint tokens0 ∧
   @roundtrips _ cache_codec (AssistantMessageTokens.cache tokens0) ∧
   @AssistantMessageTokens.from_dict _ cache_codec
     (@AssistantMessageTokens.to_dict _ cache_codec tokens0) = Ok tokens0) ∧
  (EventMessageUpdated.bag_disjoint event0 ∧
   EventMessageUpdated.type_ event0 = VStr "message.updated" ∧
   @roundtrips _ properties_codec (EventMessageUpdated.properties event0) ∧
   @EventMessageUpdated.from_dict _ properties_codec
     (@EventMessageUpdated.to_dict _ properties_codec event0) = Ok event0).
Proof.
  assert (Hb1 : AssistantMessageTokens.bag_disjoint tokens0).
  { intros key Hk. apply tokens_field_names_elem in Hk.
    destruct Hk as [->|[->|[->| ->]]]; reflexivity. }
  assert (Hr1 : @roundtrips _ cache_codec
                  (AssistantMessageTokens.cache tokens0))
    by (vm_compute; reflexivity).
  assert (Hb2 : EventMessageUpdated.bag_disjoint event0).
  { intros key Hk. apply event_field_names_elem in Hk.
    destruct Hk as [->| ->]; reflexivity. }
  assert (Hr2 : @roundtrips _ properties_codec
                  (EventMessageUpdated.properties event0))
    by (vm_compute; reflexivity).
  split.
  - split_and!; [exact Hb1 | exact Hr1 |].
    exact (proj1 (@roundtrip_from_dict_to_dict _ _ cache_codec
                    properties_codec) tokens0 Hb1 Hr1).
  - split_and!; [exact Hb2 | reflexivity | exact Hr2 |].
    exact (proj2 (@roundtrip_from_dict_to_dict _ _ cache_codec
                    properties_codec) event0 Hb2 eq_refl Hr2).
Defined.

Lemma from_dict_tag_enforcement_witness :
  (wrong_tag_map !! "type" = Some (VStr "wrong.value") ∧
   "wrong.value" ≠ "message.updated" ∧
   @EventMessageUpdated.from_dict _ properties_codec wrong_tag_map
     = Raise (ValueError "message.updated" (VStr "wrong.value"))) ∧
  (event_map0 !! "type" = Some (VStr "message.updated") ∧
   @EventMessageUpdated.from_dict _ properties_codec event_map0 = Ok event0).
Proof.
  split.
  - split_and!; [reflexivity | discriminate |].
    apply (@from_dict_tag_enforcement _ properties_codec wrong_tag_map
             "wrong.value"); [reflexivity | discriminate].
  - split; [reflexivity|].
    rewrite (proj2 (@from_dict_tag_enforcement _ properties_codec event_map0
                      "message.updated" eq_refl) eq_refl).
    vm_compute. reflexivity.
Defined.

(** The claim C4 as stated fails on [wrong_tag_map]: ["properties"] is
    absent, and the error is that of the tag check, not a [KeyError]. *)
Lemma from_dict_missing_field_counterexample :
  ∃ (m : dict) (key : string),
    key ∈ EventMessageUpdated.field_names ∧ m !! key = None ∧
    @EventMessageUpdated.from_dict _ properties_codec m
      = Raise (ValueError "message.updated" (VStr "wrong.value")) ∧
    ∀ key', @EventMessageUpdated.from_dict _ properties_codec m
              ≠ Raise (KeyError key').
Proof.
  exists wrong_tag_map, "properties". split_and!.
  - apply event_field_names_elem. by right.
  - reflexivity.
  - reflexivity.
  - intros key'. discriminate.
Qed.

Lemma from_dict_missing_field_witness :
  ((∃ key, key ∈ AssistantMessageTokens.field_names ∧
           delete "output" tokens_map0 !! key = None) ∧
   ∃ key, key ∈ AssistantMessageTokens.field_names ∧
          delete "output" tokens_map0 !! key = None ∧
          @AssistantMessageTokens.from_dict _ cache_codec
            (delete "output" tokens_map0) = Raise (KeyError key)) ∧
  ((∅ : dict) !! "type" = None ∧
   @EventMessageUpdated.from_dict _ properties_codec ∅
     = Raise (KeyError "type")) ∧
  (delete "properties" event_map0 !! "type" = Some (VStr "message.updated") ∧
   delete "properties" event_map0 !! "properties" = None ∧
   @EventMessageUpdated.from_dict _ properties_codec
     (delete "properties" event_map0) = Raise (KeyError "properties")) ∧
  (wrong_tag_map !! "type" = Some (VStr "wrong.value") ∧
   VStr "wrong.value" ≠ VStr "message.updated" ∧
   wrong_tag_map !! "properties" = None ∧
   @EventMessageUpdated.from_dict _ properties_codec wrong_tag_map
     = Raise (ValueError "message.updated" (VStr "wrong.value"))) ∧
  (<["type" := VNone]> event_map0 !! "type" = Some VNone ∧
   VNone ≠ VStr "message.updated" ∧
   is_Some (<["type" := VNone]> event_map0 !! "properties") ∧
   @EventMessageUpdated.from_dict _ properties_codec
     (<["type" := VNone]> event_map0)
     = Raise (ValueError "message.updated" VNone)).
Proof.
  pose proof (@from_dict_missing_field _ _ cache_codec properties_codec)
    as (Htokens & Htype & Hproperties & Htag).
  assert (Hne : VStr "wrong.value" ≠ VStr "message.updated") by discriminate.
  assert (Hne' : VNone ≠ VStr "message.updated") by discriminate.
  assert (Hmissing : ∃ key, key ∈ AssistantMessageTokens.field_names ∧
                            delete "output" tokens_map0 !! key = None).
  { exists "output". split; [|reflexivity].
    apply tokens_field_names_elem. tauto. }
  split_and!.
  - exact Hmissing.
  - exact (Htokens _ Hmissing).
  - reflexivity.
  - exact (Htype ∅ eq_refl).
  - reflexivity.
  - reflexivity.
  - exact (Hproperties (delete "properties" event_map0) eq_refl eq_refl).
  - reflexivity.
  - exact Hne.
  - reflexivity.
  - exact (Htag wrong_tag_map (VStr "wrong.value") eq_refl Hne).
  - reflexivity.
  - exact Hne'.
  - by eexists.
  - exact (Htag (<["type" := VNone]> event_map0) VNone eq_refl Hne').
Defined.

Lemma from_dict_leaves_source_unchanged_witness :
  (store0 tokens_map0 !! 1%positive = Some tokens_map0 ∧
   (@AssistantMessageTokens.from_dict_st _ cache_codec 1%positive
      (store0 tokens_map0)).2 !! 1%positive = Some tokens_map0) ∧
  (store0 wrong_tag_map !! 1%positive = Some wrong_tag_map ∧
   (@EventMessageUpdated.from_dict_st _ properties_codec 1%positive
      (store0 wrong_tag_map)).2 !! 1%positive = Some wrong_tag_map).
Proof.
  pose proof (@from_dict_leaves_source_unchanged _ _ cache_codec
                properties_codec) as [Htokens Hevent].
  split; (split; [reflexivity|]).
  - exact (proj1 (Htokens (store0 tokens_map0) 1%positive tokens_map0
                    eq_refl)).
  - exact (proj1 (Hevent (store0 wrong_tag_map) 1%positive wrong_tag_map
                    eq_refl)).
Defined.

Lemma from_dict_bag_is_rest_witness :
  (@AssistantMessageTokens.from_dict _ cache_codec tokens_map0 = Ok tokens0 ∧
   AssistantMessageTokens.additional_properties tokens0 !! "extra"
     = (if decide ("extra" ∈ AssistantMessageTokens.field_names)
        then None else tokens_map0 !! "extra") ∧
   @AssistantMessageTokens.to_dict _ cache_codec tokens0 = tokens_map0) ∧
  (@EventMessageUpdated.from_dict _ properties_codec event_map0 = Ok event0 ∧
   EventMessageUpdated.additional_properties event0 !! "extra"
     = (if decide ("extra" ∈ EventMessageUpdated.field_names)
        then None else event_map0 !! "extra") ∧
   @EventMessageUpdated.to_dict _ properties_codec event0 = event_map0).
Proof.
  pose proof (@from_dict_bag_is_rest _ _ cache_codec properties_codec)
    as [Htokens Hevent].
  assert (H1 : @AssistantMessageTokens.from_dict _ cache_codec tokens_map0
                 = Ok tokens0) by (vm_compute; reflexivity).
  assert (H2 : @EventMessageUpdated.from_dict _ properties_codec event_map0
                 = Ok event0) by (vm_compute; reflexivity).
  split.
  - destruct (Htokens tokens_map0 tokens0 H1) as (Hbag & _ & Hre).
    split_and!; [exact H1 | exact (Hbag "extra") |].
    apply Hre. intros cv _. apply flat_reserializes.
  - destruct (Hevent event_map0 event0 H2) as (Hbag & _ & Hre).
    split_and!; [exact H2 | exact (Hbag "extra") |].
    apply Hre. intros pv _. apply flat_reserializes.
Defined.

(** The claim C7 as stated fails: [__setitem__] accepts the key ["input"],
    so an instance built by the initializer and one [__setitem__] has a
    named-field key in its bag. *)
Lemma reachable_bag_disjoint_counterexample :
  ∃ self : AssistantMessageTokens.t FlatRecord.t,
    @AssistantMessageTokens.reachable _ cache_codec (λ _, True) self ∧
    "input" ∈ AssistantMessageTokens.field_names ∧
    AssistantMessageTokens.additional_properties self !! "input"
      = Some (VInt 7) ∧
    ¬ AssistantMessageTokens.bag_disjoint self.
Proof.
  exists (AssistantMessageTokens.__setitem__
            (AssistantMessageTokens.__init__ one zero zero cache0)
            "input" (VInt 7)).
  assert (Hin : "input" ∈ AssistantMessageTokens.field_names)
    by (apply tokens_field_names_elem; tauto).
  split_and!.
  - apply AssistantMessageTokens.reach_setitem; [|done].
    apply AssistantMessageTokens.reach_init.
  - exact Hin.
  - reflexivity.
  - intros Hbag. specialize (Hbag "input" Hin). discriminate.
Qed.

Lemma reachable_bag_disjoint_witness :
  (@AssistantMessageTokens.reachable _ cache_codec
     (λ key, key ∉ AssistantMessageTokens.field_names)
     (AssistantMessageTokens.__setitem__ tokens0 "note" VNone) ∧
   AssistantMessageTokens.bag_disjoint
     (AssistantMessageTokens.__setitem__ tokens0 "note" VNone)) ∧
  (@EventMessageUpdated.reachable _ properties_codec
     (λ key, key ∉ EventMessageUpdated.field_names)
     (EventMessageUpdated.__setitem__ event0 "note" VNone) ∧
   EventMessageUpdated.bag_disjoint
     (EventMessageUpdated.__setitem__ event0 "note" VNone)).
Proof.
  pose proof (@reachable_bag_disjoint _ _ cache_codec properties_codec)
    as [Htokens Hevent].
  assert (H1 : @AssistantMessageTokens.reachable _ cache_codec
     (λ key, key ∉ AssistantMessageTokens.field_names)
     (AssistantMessageTokens.__setitem__ tokens0 "note" VNone)).
  { apply AssistantMessageTokens.reach_setitem.
    - apply (AssistantMessageTokens.reach_from_dict _ tokens_map0).
      vm_compute. reflexivity.
    - rewrite tokens_field_names_elem.
      intros [?|[?|[?|?]]]; discriminate. }
  assert (H2 : @EventMessageUpdated.reachable _ properties_codec
     (λ key, key ∉ EventMessageUpdated.field_names)
     (EventMessageUpdated.__setitem__ event0 "note" VNone)).
  { apply EventMessageUpdated.reach_setitem.
    - apply (EventMessageUpdated.reach_from_dict _ event_map0).
      vm_compute. reflexivity.
    - rewrite event_field_names_elem. intros [?|?]; discriminate. }
  split; (split; [done|]).
  - exact (Htokens _ H1).
  - exact (Hevent _ H2).
Defined.

Lemma bag_accessors_map_semantics_witness :
  (AssistantMessageTokens.additional_properties tokens0 !! "extra"
     = Some (VInt 42) ∧
   AssistantMessageTokens.__getitem__ tokens0 "extra" = Ok (VInt 42)) ∧
  (AssistantMessageTokens.additional_properties tokens0 !! "other" = None ∧
   AssistantMessageTokens.__getitem__ tokens0 "other"
     = Raise (KeyError "other") ∧
   AssistantMessageTokens.__delitem__ tokens0 "other"
     = Raise (KeyError "other")) ∧
  (EventMessageUpdated.additional_properties event0 !! "extra"
     = Some (VInt 42) ∧
   EventMessageUpdated.__delitem__ event0 "extra" =
     Ok (EventMessageUpdated.set_additional_properties event0
           (delete "extra"
              (EventMessageUpdated.additional_properties event0)))).
Proof.
  pose proof (@bag_accessors_map_semantics FlatRecord.t FlatRecord.t)
    as [Htokens Hevent].
  destruct (Htokens tokens0 "extra") as (_ & Hget & _).
  destruct (Htokens tokens0 "other") as (Hget0 & _ & Hdel0 & _).
  destruct (Hevent event0 "extra") as (_ & _ & _ & Hdel & _).
  split_and!.
  - reflexivity.
  - exact (Hget (VInt 42) eq_refl).
  - reflexivity.
  - exact (Hget0 eq_refl).
  - exact (Hdel0 eq_refl).
  - reflexivity.
  - exact (proj1 (Hdel (ex_intro _ (VInt 42) eq_refl))).
Defined.

Lemma from_dict_tag_checked_first_witness :
  (wrong_tag_map !! "type" = Some (VStr "wrong.value") ∧
   VStr "wrong.value" ≠ VStr "message.updated" ∧
   wrong_tag_map !! "properties" = None ∧
   @EventMessageUpdated.from_dict _ properties_codec wrong_tag_map
     = Raise (ValueError "message.updated" (VStr "wrong.value"))) ∧
  (delete "type" event_map0 !! "type" = None ∧
   @EventMessageUpdated.from_dict _ properties_codec
     (delete "type" event_map0) = Raise (KeyError "type")).
Proof.
  assert (Hne : VStr "wrong.value" ≠ VStr "message.updated") by discriminate.
  split.
  - split_and!; [reflexivity | exact Hne | reflexivity |].
    exact (proj1 (proj2 (@from_dict_tag_checked_first _ properties_codec
                           wrong_tag_map))
             (VStr "wrong.value") eq_refl Hne eq_refl).
  - split; [reflexivity|].
    exact (proj2 (proj2 (@from_dict_tag_checked_first _ properties_codec
                           (delete "type" event_map0))) eq_refl).
Defined.

(** * Further properties of the two classes *)

(** ** Helper facts *)

Lemma dict_pop_insert_ne (d : dict) key v k :
  key ≠ k →
  dict_pop (<[key := v]> d) k =
    match dict_pop d k with
    | Ok (x, d') => Ok (x, <[key := v]> d')
    | Raise e => Raise e
    end.
Proof.
  intros Hne. unfold dict_pop. rewrite lookup_insert_ne by done.
  destruct (d !! k); [|done]. by rewrite delete_insert_ne.
Qed.

Lemma dict_pop_delete_ne (d : dict) key k :
  key ≠ k →
  dict_pop (delete key d) k =
    match dict_pop d k with
    | Ok (x, d') => Ok (x, delete key d')
    | Raise e => Raise e
    end.
Proof.
  intros Hne. unfold dict_pop. rewrite lookup_delete_ne by done.
  destruct (d !! k); [|done]. by rewrite delete_delete.
Qed.

Lemma additional_keys_of_bag (bag : dict) key :
  key ∈ (map_to_list bag).*1 ↔ is_Some (bag !! key).
Proof.
  rewrite list_elem_of_fmap. split.
  - intros [[k v] [-> Hkv]]. apply elem_of_map_to_list in Hkv. by exists v.
  - intros [v Hv]. exists (key, v). split; [done|].
    by apply elem_of_map_to_list.
Qed.

Lemma dict_accessor_laws (d : dict) key v :
  dict_getitem (dict_setitem d key v) key = Ok v ∧
  dict_contains (dict_setitem d key v) key = true ∧
  (∀ key', key' ≠ key →
     dict_getitem (dict_setitem d key v) key' = dict_getitem d key' ∧
     dict_contains (dict_setitem d key v) key' = dict_contains d key') ∧
  (dict_contains d key = false →
     dict_delitem (dict_setitem d key v) key = Ok d) ∧
  (∀ d', dict_delitem d key = Ok d' →
     dict_contains d' key = false ∧
     dict_delitem d' key = Raise (KeyError key) ∧
     ∀ w, dict_getitem d key = Ok w → dict_setitem d' key w = d).
Proof.
  unfold dict_getitem, dict_setitem, dict_delitem, dict_contains.
  split_and!.
  - by rewrite lookup_insert_eq.
  - rewrite lookup_insert_eq. by apply bool_decide_eq_true.
  - intros key' Hne. by rewrite lookup_insert_ne.
  - intros Hc. apply bool_decide_eq_false in Hc.
    rewrite lookup_insert_eq, delete_insert_eq. f_equal.
    apply delete_id. by apply eq_None_not_Some.
  - intros d'. destruct (d !! key) as [w'|] eqn:Hk; [|done].
    intros [= <-]. rewrite lookup_delete_eq. split_and!.
    + apply bool_decide_eq_false. by intros [? ?].
    + done.
    + intros w [= <-]. rewrite insert_delete_eq. by apply insert_id.
Qed.

Section tokens_more.
Context {Cache : Type} `{!Codec Cache}.
Import AssistantMessageTokens.

(** The bag without the named-field keys. *)
Lemma tokens_to_dict_strip (self : t Cache) :
  delete "cache" (delete "reasoning" (delete "output" (delete "input"
    (to_dict self)))) =
  delete "cache" (delete "reasoning" (delete "output" (delete "input"
    (additional_properties self)))).
Proof.
  apply map_eq; intros key. rewrite !tokens_bag_of_deletes.
  case_decide as Hk; [done|]. rewrite tokens_to_dict_lookup.
  rewrite tokens_field_names_elem in Hk. repeat case_decide; tauto.
Qed.

Lemma tokens_to_dict_of_strip (self : t Cache) :
  to_dict (set_additional_properties self
    (delete "cache" (delete "reasoning" (delete "output" (delete "input"
      (additional_properties self)))))) = to_dict self.
Proof.
  apply map_eq; intros key. rewrite !tokens_to_dict_lookup. simpl.
  repeat case_decide; try done.
  rewrite tokens_bag_of_deletes. case_decide as Hk; [|done].
  rewrite tokens_field_names_elem in Hk. tauto.
Qed.

Lemma tokens_from_to_dict (self : t Cache) :
  roundtrips (cache self) →
  from_dict (to_dict self) =
    Ok (set_additional_properties self
      (delete "cache" (delete "reasoning" (delete "output" (delete "input"
        (additional_properties self)))))).
Proof.
  intros Hrt.
  rewrite (tokens_from_dict_Some _ (input_ self) (output self)
    (reasoning self) (VDict (nested_to_dict (cache self))) (cache self));
    [| by rewrite tokens_to_dict_lookup .. | exact Hrt].
  by rewrite tokens_to_dict_strip.
Qed.

Lemma tokens_from_dict_insert (m : dict) key v :
  key ∉ field_names →
  from_dict (Cache := Cache) (<[key := v]> m) =
    self ← from_dict m; mret (__setitem__ self key v).
Proof.
  rewrite tokens_field_names_elem. intros Hk. unfold from_dict.
  rewrite dict_pop_insert_ne by (intros ->; tauto).
  destruct (dict_pop m "input") as [[i m1]|]; [|done]. simpl.
  rewrite dict_pop_insert_ne by (intros ->; tauto).
  destruct (dict_pop m1 "output") as [[o m2]|]; [|done]. simpl.
  rewrite dict_pop_insert_ne by (intros ->; tauto).
  destruct (dict_pop m2 "reasoning") as [[r m3]|]; [|done]. simpl.
  rewrite dict_pop_insert_ne by (intros ->; tauto).
  destruct (dict_pop m3 "cache") as [[cv m4]|]; [|done]. simpl.
  by destruct (nested_from_dict cv).
Qed.

Lemma tokens_from_dict_delete (m : dict) key :
  key ∉ field_names →
  from_dict (Cache := Cache) (delete key m) =
    self ← from_dict m;
    mret (set_additional_properties self
            (delete key (additional_properties self))).
Proof.
  rewrite tokens_field_names_elem. intros Hk. unfold from_dict.
  rewrite dict_pop_delete_ne by (intros ->; tauto).
  destruct (dict_pop m "input") as [[i m1]|]; [|done]. simpl.
  rewrite dict_pop_delete_ne by (intros ->; tauto).
  destruct (dict_pop m1 "output") as [[o m2]|]; [|done]. simpl.
  rewrite dict_pop_delete_ne by (intros ->; tauto).
  destruct (dict_pop m2 "reasoning") as [[r m3]|]; [|done]. simpl.
  rewrite dict_pop_delete_ne by (intros ->; tauto).
  destruct (dict_pop m3 "cache") as [[cv m4]|]; [|done]. simpl.
  by destruct (nested_from_dict cv).
Qed.
End tokens_more.

Section event_more.
Context {Properties : Type} `{!Codec Properties}.
Import EventMessageUpdated.

Lemma event_to_dict_strip (self : t Properties) :
  delete "properties" (delete "type" (to_dict self)) =
  delete "properties" (delete "type" (additional_properties self)).
Proof.
  apply map_eq; intros key. rewrite !event_bag_of_deletes.
  case_decide as Hk; [done|]. rewrite event_to_dict_lookup.
  rewrite event_field_names_elem in Hk. repeat case_decide; tauto.
Qed.

Lemma event_to_dict_of_strip (self : t Properties) :
  to_dict (set_additional_properties self
    (delete "properties" (delete "type" (additional_properties self))))
  = to_dict self.
Proof.
  apply map_eq; intros key. rewrite !event_to_dict_lookup. simpl.
  repeat case_decide; try done.
  rewrite event_bag_of_deletes. case_decide as Hk; [|done].
  rewrite event_field_names_elem in Hk. tauto.
Qed.

Lemma event_from_dict_Some (m : dict) pv p :
  m !! "type" = Some (VStr const) → m !! "properties" = Some pv →
  nested_from_dict pv = Ok p →
  from_dict m =
    Ok (mk (VStr const) p (delete "properties" (delete "type" m))).
Proof.
  intros Ht Hp Hn. rewrite event_from_dict_tag_ok by done.
  rewrite (dict_pop_Some _ _ pv) by (by rewrite lookup_delete_ne).
  simpl. by rewrite Hn.
Qed.

Lemma event_from_to_dict (self : t Properties) :
  type_ self = VStr const → roundtrips (properties self) →
  from_dict (to_dict self) =
    Ok (set_additional_properties self
      (delete "properties" (delete "type" (additional_properties self)))).
Proof.
  intros Hty Hrt.
  rewrite (event_from_dict_Some _
    (VDict (nested_to_dict (properties self))) (properties self));
    [| rewrite event_to_dict_lookup; simpl; by rewrite Hty
     | by rewrite event_to_dict_lookup | exact Hrt].
  rewrite event_to_dict_strip. unfold set_additional_properties.
  by rewrite Hty.
Qed.

Lemma event_from_dict_insert (m : dict) key v :
  key ∉ field_names →
  from_dict (Properties := Properties) (<[key := v]> m) =
    self ← from_dict m; mret (__setitem__ self key v).
Proof.
  rewrite event_field_names_elem. intros Hk. unfold from_dict.
  rewrite dict_pop_insert_ne by (intros ->; tauto).
  destruct (dict_pop m "type") as [[ty m1]|]; [|done]. simpl.
  destruct (ne_str ty const); [done|].
  rewrite dict_pop_insert_ne by (intros ->; tauto).
  destruct (dict_pop m1 "properties") as [[pv m2]|]; [|done]. simpl.
  by destruct (nested_from_dict pv).
Qed.

Lemma event_from_dict_delete (m : dict) key :
  key ∉ field_names →
  from_dict (Properties := Properties) (delete key m) =
    self ← from_dict m;
    mret (set_additional_properties self
            (delete key (additional_properties self))).
Proof.
  rewrite event_field_names_elem. intros Hk. unfold from_dict.
  rewrite dict_pop_delete_ne by (intros ->; tauto).
  destruct (dict_pop m "type") as [[ty m1]|]; [|done]. simpl.
  destruct (ne_str ty const); [done|].
  rewrite dict_pop_delete_ne by (intros ->; tauto).
  destruct (dict_pop m1 "properties") as [[pv m2]|]; [|done]. simpl.
  by destruct (nested_from_dict pv).
Qed.
End event_more.

(** ** Deserialization: success and errors *)

Section further.
Context {Cache Properties : Type} `{!Codec Cache} `{!Codec Properties}.

(** X1: [from_dict] returns an instance exactly when every named-field key
    is present, the tag (of [EventMessageUpdated]) is the literal and the
    nested [from_dict] returns; the instance then holds the values found
    under the keys, the nested record, and the rest of the map as bag. *)
Theorem from_dict_succeeds_iff :
  (∀ (m : dict) (self : AssistantMessageTokens.t Cache),
     AssistantMessageTokens.from_dict m = Ok self ↔
     m !! "input" = Some (AssistantMessageTokens.input_ self) ∧
     m !! "output" = Some (AssistantMessageTokens.output self) ∧
     m !! "reasoning" = Some (AssistantMessageTokens.reasoning self) ∧
     (∃ cv, m !! "cache" = Some cv ∧
            nested_from_dict cv = Ok (AssistantMessageTokens.cache self)) ∧
     AssistantMessageTokens.additional_properties self =
       delete "cache" (delete "reasoning" (delete "output"
         (delete "input" m)))) ∧
  (∀ (m : dict) (self : EventMessageUpdated.t Properties),
     EventMessageUpdated.from_dict m = Ok self ↔
     EventMessageUpdated.type_ self = VStr "message.updated" ∧
     m !! "type" = Some (VStr "message.updated") ∧
     (∃ pv, m !! "properties" = Some pv ∧
            nested_from_dict pv
              = Ok (EventMessageUpdated.properties self)) ∧
     EventMessageUpdated.additional_properties self =
       delete "properties" (delete "type" m)).
Proof.
  split; intros m self; split.
  - apply tokens_from_dict_inv.
  - intros (Hi & Ho & Hr & (cv & Hc & Hn) & Hbag).
    rewrite (tokens_from_dict_Some m _ _ _ _ _ Hi Ho Hr Hc Hn).
    destruct self; simpl in *. by rewrite Hbag.
  - intros (Hty & Ht & Hp & Hbag)%event_from_dict_inv.
    rewrite Hty in Ht. done.
  - intros (Hty & Ht & (pv & Hp & Hn) & Hbag).
    rewrite (event_from_dict_Some m _ _ Ht Hp Hn).
    destruct self; simpl in *. by rewrite Hbag, Hty.
Qed.

(** X2: [AssistantMessageTokens.from_dict] pops ["input"], ["output"],
    ["reasoning"] and ["cache"] in this order and raises the [KeyError] of
    the first absent one; the nested [from_dict] runs only when all four
    are present, and what it raises is raised unchanged. *)
Theorem tokens_from_dict_error_order (m : dict) :
  (m !! "input" = None →
   AssistantMessageTokens.from_dict (Cache := Cache) m
     = Raise (KeyError "input")) ∧
  (is_Some (m !! "input") → m !! "output" = None →
   AssistantMessageTokens.from_dict (Cache := Cache) m
     = Raise (KeyError "output")) ∧
  (is_Some (m !! "input") → is_Some (m !! "output") →
   m !! "reasoning" = None →
   AssistantMessageTokens.from_dict (Cache := Cache) m
     = Raise (KeyError "reasoning")) ∧
  (is_Some (m !! "input") → is_Some (m !! "output") →
   is_Some (m !! "reasoning") → m !! "cache" = None →
   AssistantMessageTokens.from_dict (Cache := Cache) m
     = Raise (KeyError "cache")) ∧
  (∀ i o r cv,
     m !! "input" = Some i → m !! "output" = Some o →
     m !! "reasoning" = Some r → m !! "cache" = Some cv →
     AssistantMessageTokens.from_dict (Cache := Cache) m =
       c ← nested_from_dict cv;
       mret (AssistantMessageTokens.mk i o r c
               (delete "cache" (delete "reasoning" (delete "output"
                  (delete "input" m)))))).
Proof.
  unfold AssistantMessageTokens.from_dict. split_and!.
  - intros Hi. by rewrite dict_pop_None.
  - intros [i Hi] Ho. rewrite (dict_pop_Some _ _ i) by done. simpl.
    by rewrite dict_pop_None by by simplify_map_eq.
  - intros [i Hi] [o Ho] Hr. rewrite (dict_pop_Some _ _ i) by done. simpl.
    rewrite (dict_pop_Some _ _ o) by by simplify_map_eq. simpl.
    by rewrite dict_pop_None by by simplify_map_eq.
  - intros [i Hi] [o Ho] [r Hr] Hc.
    rewrite (dict_pop_Some _ _ i) by done. simpl.
    rewrite (dict_pop_Some _ _ o) by by simplify_map_eq. simpl.
    rewrite (dict_pop_Some _ _ r) by by simplify_map_eq. simpl.
    by rewrite dict_pop_None by by simplify_map_eq.
  - intros i o r cv Hi Ho Hr Hc.
    rewrite (dict_pop_Some _ _ i) by done. simpl.
    rewrite (dict_pop_Some _ _ o) by by simplify_map_eq. simpl.
    rewrite (dict_pop_Some _ _ r) by by simplify_map_eq. simpl.
    rewrite (dict_pop_Some _ _ cv) by by simplify_map_eq. done.
Qed.

(** X3: the errors of [from_dict] are the [KeyError] of the first absent
    named-field key, the [ValueError] of the tag check, and what the nested
    [from_dict] raises on the value under the nested key; it raises
    nothing else, and it raises a nested error only when all its own keys
    are present (and the tag check has passed). *)
Theorem from_dict_errors_classified :
  (∀ (m : dict) (e : error),
     AssistantMessageTokens.from_dict (Cache := Cache) m = Raise e →
     (m !! "input" = None ∧ e = KeyError "input") ∨
     (is_Some (m !! "input") ∧ m !! "output" = None ∧
      e = KeyError "output") ∨
     (is_Some (m !! "input") ∧ is_Some (m !! "output") ∧
      m !! "reasoning" = None ∧ e = KeyError "reasoning") ∨
     (is_Some (m !! "input") ∧ is_Some (m !! "output") ∧
      is_Some (m !! "reasoning") ∧ m !! "cache" = None ∧
      e = KeyError "cache") ∨
     (is_Some (m !! "input") ∧ is_Some (m !! "output") ∧
      is_Some (m !! "reasoning") ∧
      ∃ cv, m !! "cache" = Some cv ∧
            nested_from_dict (T := Cache) cv = Raise e)) ∧
  (∀ (m : dict) (e : error),
     EventMessageUpdated.from_dict (Properties := Properties) m = Raise e →
     (m !! "type" = None ∧ e = KeyError "type") ∨
     (∃ v, m !! "type" = Some v ∧ v ≠ VStr "message.updated" ∧
           e = ValueError "message.updated" v) ∨
     (m !! "type" = Some (VStr "message.updated") ∧
      m !! "properties" = None ∧ e = KeyError "properties") ∨
     (m !! "type" = Some (VStr "message.updated") ∧
      ∃ pv, m !! "properties" = Some pv ∧
            nested_from_dict (T := Properties) pv = Raise e)).
Proof.
  split; intros m e.
  - unfold AssistantMessageTokens.from_dict.
    destruct (m !! "input") as [i|] eqn:Hi; cycle 1.
    { rewrite dict_pop_None by done. intros [= <-]. by left. }
    rewrite (dict_pop_Some _ _ i) by done. simpl.
    destruct (m !! "output") as [o|] eqn:Ho; cycle 1.
    { rewrite dict_pop_None by by simplify_map_eq. intros [= <-].
      right; left. eauto. }
    rewrite (dict_pop_Some _ _ o) by by simplify_map_eq. simpl.
    destruct (m !! "reasoning") as [r|] eqn:Hr; cycle 1.
    { rewrite dict_pop_None by by simplify_map_eq. intros [= <-].
      right; right; left. eauto. }
    rewrite (dict_pop_Some _ _ r) by by simplify_map_eq. simpl.
    destruct (m !! "cache") as [cv|] eqn:Hc; cycle 1.
    { rewrite dict_pop_None by by simplify_map_eq. intros [= <-].
      right; right; right; left. eauto 10. }
    rewrite (dict_pop_Some _ _ cv) by by simplify_map_eq. simpl.
    destruct (nested_from_dict cv) as [c|e'] eqn:Hn; [done|].
    intros [= <-]. right; right; right; right. eauto 10.
  - destruct (m !! "type") as [v|] eqn:Ht; cycle 1.
    { rewrite event_from_dict_no_tag by done. intros [= <-]. by left. }
    destruct (ne_str v "message.updated") eqn:Hne; cycle 1.
    2: { assert (Hv : v ≠ VStr "message.updated").
         { intros Hv. apply ne_str_false in Hv. congruence. }
         rewrite (event_from_dict_tag_wrong m v) by done. intros [= <-].
         right; left. by exists v. }
    apply ne_str_false in Hne as ->.
    rewrite event_from_dict_tag_ok by done.
    destruct (m !! "properties") as [pv|] eqn:Hp; cycle 1.
    { rewrite dict_pop_None by by rewrite lookup_delete_ne.
      intros [= <-]. right; right; left. done. }
    rewrite (dict_pop_Some _ _ pv) by by rewrite lookup_delete_ne. simpl.
    destruct (nested_from_dict pv) as [p|e'] eqn:Hn; [done|].
    intros [= <-]. right; right; right. split; [done|]. by exists pv.
Qed.

(** ** Serialization *)

(** X4: the keys of the map [to_dict] returns are the named-field keys and
    the keys of the bag: no named field is ever left out and no bag entry
    is dropped. *)
Theorem to_dict_keys :
  (∀ self : AssistantMessageTokens.t Cache,
     dom (AssistantMessageTokens.to_dict self) =
       list_to_set AssistantMessageTokens.field_names ∪
       dom (AssistantMessageTokens.additional_properties self)) ∧
  (∀ self : EventMessageUpdated.t Properties,
     dom (EventMessageUpdated.to_dict self) =
       list_to_set EventMessageUpdated.field_names ∪
       dom (EventMessageUpdated.additional_properties self)).
Proof.
  split; intros self; apply set_eq; intros key;
    rewrite elem_of_union, elem_of_list_to_set, !elem_of_dom.
  - rewrite tokens_to_dict_lookup, tokens_field_names_elem.
    repeat case_decide; subst; split; eauto; try tauto;
      try (intros [?|?]; [tauto | done]).
  - rewrite event_to_dict_lookup, event_field_names_elem.
    repeat case_decide; subst; split; eauto; try tauto;
      try (intros [?|?]; [tauto | done]).
Qed.

(** X5: [from_dict] on [to_dict] of any record whose nested record survives
    its own round trip (and whose tag is the literal) returns the record
    with the named-field keys removed from its bag, and that record
    serializes to the same map: bag entries under named-field keys are
    lost, nothing else is. *)
Theorem from_dict_to_dict_normalizes :
  (∀ R : AssistantMessageTokens.t Cache,
     roundtrips (AssistantMessageTokens.cache R) →
     let R' := AssistantMessageTokens.set_additional_properties R
       (delete "cache" (delete "reasoning" (delete "output" (delete "input"
          (AssistantMessageTokens.additional_properties R))))) in
     AssistantMessageTokens.from_dict (AssistantMessageTokens.to_dict R)
       = Ok R' ∧
     AssistantMessageTokens.to_dict R' = AssistantMessageTokens.to_dict R) ∧
  (∀ R : EventMessageUpdated.t Properties,
     EventMessageUpdated.type_ R = VStr "message.updated" →
     roundtrips (EventMessageUpdated.properties R) →
     let R' := EventMessageUpdated.set_additional_properties R
       (delete "properties" (delete "type"
          (EventMessageUpdated.additional_properties R))) in
     EventMessageUpdated.from_dict (EventMessageUpdated.to_dict R)
       = Ok R' ∧
     EventMessageUpdated.to_dict R' = EventMessageUpdated.to_dict R).
Proof.
  split.
  - intros R Hrt R'. split; [by apply tokens_from_to_dict|].
    apply tokens_to_dict_of_strip.
  - intros R Hty Hrt R'. split; [by apply event_from_to_dict|].
    apply event_to_dict_of_strip.
Qed.

(** X6: an instance returned by [from_dict] whose nested record survives
    its own round trip is given back by [from_dict] on its [to_dict]. *)
Theorem from_dict_result_roundtrips :
  (∀ (m : dict) (self : AssistantMessageTokens.t Cache),
     AssistantMessageTokens.from_dict m = Ok self →
     roundtrips (AssistantMessageTokens.cache self) →
     AssistantMessageTokens.from_dict (AssistantMessageTokens.to_dict self)
       = Ok self) ∧
  (∀ (m : dict) (self : EventMessageUpdated.t Properties),
     EventMessageUpdated.from_dict m = Ok self →
     roundtrips (EventMessageUpdated.properties self) →
     EventMessageUpdated.from_dict (EventMessageUpdated.to_dict self)
       = Ok self).
Proof.
  split.
  - intros m self (_ & _ & _ & _ & Hbag)%tokens_from_dict_inv Hrt.
    rewrite tokens_from_to_dict by done. f_equal.
    destruct self as [i o r c bag]; simpl in *. f_equal. subst bag.
    apply map_eq; intros key. rewrite !tokens_bag_of_deletes.
    by case_decide.
  - intros m self (Hty & _ & _ & Hbag)%event_from_dict_inv Hrt.
    rewrite event_from_to_dict by done. f_equal.
    destruct self as [ty p bag]; simpl in *. f_equal. subst bag.
    apply map_eq; intros key. rewrite !event_bag_of_deletes.
    by case_decide.
Qed.

(** X7: a key that is no named-field key has no part in deserialization:
    with the key added to the input map, [from_dict] raises the same error
    or returns the same instance with the entry set in its bag; with the
    key removed, the same instance without the entry. *)
Theorem from_dict_unknown_key :
  (∀ (m : dict) (key : string) (v : value),
     key ∉ AssistantMessageTokens.field_names →
     AssistantMessageTokens.from_dict (Cache := Cache) (<[key := v]> m) =
       (self ← AssistantMessageTokens.from_dict m;
        mret (AssistantMessageTokens.__setitem__ self key v)) ∧
     AssistantMessageTokens.from_dict (Cache := Cache) (delete key m) =
       (self ← AssistantMessageTokens.from_dict m;
        mret (AssistantMessageTokens.set_additional_properties self
          (delete key
             (AssistantMessageTokens.additional_properties self))))) ∧
  (∀ (m : dict) (key : string) (v : value),
     key ∉ EventMessageUpdated.field_names →
     EventMessageUpdated.from_dict (Properties := Properties)
       (<[key := v]> m) =
       (self ← EventMessageUpdated.from_dict m;
        mret (EventMessageUpdated.__setitem__ self key v)) ∧
     EventMessageUpdated.from_dict (Properties := Properties)
       (delete key m) =
       (self ← EventMessageUpdated.from_dict m;
        mret (EventMessageUpdated.set_additional_properties self
          (delete key (EventMessageUpdated.additional_properties self))))).
Proof.
  split; intros m key v Hkey.
  - split; [by apply tokens_from_dict_insert|].
    by apply tokens_from_dict_delete.
  - split; [by apply event_from_dict_insert|].
    by apply event_from_dict_delete.
Qed.

(** ** The bag accessors, composed *)

(** X8: what [__setitem__] stores is what [__getitem__] returns and
    [__contains__] finds, other keys are as before; [__delitem__] undoes a
    [__setitem__] on a key that was absent, and after it the key is absent,
    a second [__delitem__] raises [KeyError], and [__setitem__] of the
    value that was stored gives the instance back. *)
Theorem bag_accessors_compose :
  (∀ (self : AssistantMessageTokens.t Cache) (key : string) (v : value),
     let self1 := AssistantMessageTokens.__setitem__ self key v in
     AssistantMessageTokens.__getitem__ self1 key = Ok v ∧
     AssistantMessageTokens.__contains__ self1 key = true ∧
     (∀ key', key' ≠ key →
        AssistantMessageTokens.__getitem__ self1 key'
          = AssistantMessageTokens.__getitem__ self key' ∧
        AssistantMessageTokens.__contains__ self1 key'
          = AssistantMessageTokens.__contains__ self key') ∧
     (AssistantMessageTokens.__contains__ self key = false →
        AssistantMessageTokens.__delitem__ self1 key = Ok self) ∧
     (∀ self', AssistantMessageTokens.__delitem__ self key = Ok self' →
        AssistantMessageTokens.__contains__ self' key = false ∧
        AssistantMessageTokens.__delitem__ self' key
          = Raise (KeyError key) ∧
        ∀ w, AssistantMessageTokens.__getitem__ self key = Ok w →
             AssistantMessageTokens.__setitem__ self' key w = self)) ∧
  (∀ (self : EventMessageUpdated.t Properties) (key : string) (v : value),
     let self1 := EventMessageUpdated.__setitem__ self key v in
     EventMessageUpdated.__getitem__ self1 key = Ok v ∧
     EventMessageUpdated.__contains__ self1 key = true ∧
     (∀ key', key' ≠ key →
        EventMessageUpdated.__getitem__ self1 key'
          = EventMessageUpdated.__getitem__ self key' ∧
        EventMessageUpdated.__contains__ self1 key'
          = EventMessageUpdated.__contains__ self key') ∧
     (EventMessageUpdated.__contains__ self key = false →
        EventMessageUpdated.__delitem__ self1 key = Ok self) ∧
     (∀ self', EventMessageUpdated.__delitem__ self key = Ok self' →
        EventMessageUpdated.__contains__ self' key = false ∧
        EventMessageUpdated.__delitem__ self' key = Raise (KeyError key) ∧
        ∀ w, EventMessageUpdated.__getitem__ self key = Ok w →
             EventMessageUpdated.__setitem__ self' key w = self)).
Proof.
  split; intros [] key v self1; subst self1.
  - unfold AssistantMessageTokens.__getitem__,
      AssistantMessageTokens.__contains__,
      AssistantMessageTokens.__delitem__,
      AssistantMessageTokens.__setitem__,
      AssistantMessageTokens.set_additional_properties; simpl.
    destruct (dict_accessor_laws additional_properties key v)
      as (Hget & Hin & Hother & Hundo & Hdel).
    split_and!; try done.
    + intros Hc. by rewrite Hundo.
    + intros self'.
      destruct (dict_delitem additional_properties key) as [d'|] eqn:Hd;
        [|done].
      intros [= <-]. simpl. destruct (Hdel d' eq_refl) as (H1 & H2 & H3).
      split_and!; [done | by rewrite H2 |].
      intros w Hw. by rewrite (H3 w Hw).
  - unfold EventMessageUpdated.__getitem__,
      EventMessageUpdated.__contains__,
      EventMessageUpdated.__delitem__,
      EventMessageUpdated.__setitem__,
      EventMessageUpdated.set_additional_properties; simpl.
    destruct (dict_accessor_laws additional_properties key v)
      as (Hget & Hin & Hother & Hundo & Hdel).
    split_and!; try done.
    + intros Hc. by rewrite Hundo.
    + intros self'.
      destruct (dict_delitem additional_properties key) as [d'|] eqn:Hd;
        [|done].
      intros [= <-]. simpl. destruct (Hdel d' eq_refl) as (H1 & H2 & H3).
      split_and!; [done | by rewrite H2 |].
      intros w Hw. by rewrite (H3 w Hw).
Qed.

(** X9: a bag entry set or deleted under a key that is no named-field key
    is set or deleted in the map [to_dict] returns; under a named-field
    key, [__setitem__] and [__delitem__] change nothing of that map. *)
Theorem to_dict_after_bag_update :
  (∀ (self : AssistantMessageTokens.t Cache) (key : string),
     (∀ v,
        AssistantMessageTokens.to_dict
          (AssistantMessageTokens.__setitem__ self key v) =
        if decide (key ∈ AssistantMessageTokens.field_names)
        then AssistantMessageTokens.to_dict self
        else <[key := v]> (AssistantMessageTokens.to_dict self)) ∧
     (∀ self', AssistantMessageTokens.__delitem__ self key = Ok self' →
        AssistantMessageTokens.to_dict self' =
        if decide (key ∈ AssistantMessageTokens.field_names)
        then AssistantMessageTokens.to_dict self
        else delete key (AssistantMessageTokens.to_dict self))) ∧
  (∀ (self : EventMessageUpdated.t Properties) (key : string),
     (∀ v,
        EventMessageUpdated.to_dict
          (EventMessageUpdated.__setitem__ self key v) =
        if decide (key ∈ EventMessageUpdated.field_names)
        then EventMessageUpdated.to_dict self
        else <[key := v]> (EventMessageUpdated.to_dict self)) ∧
     (∀ self', EventMessageUpdated.__delitem__ self key = Ok self' →
        EventMessageUpdated.to_dict self' =
        if decide (key ∈ EventMessageUpdated.field_names)
        then EventMessageUpdated.to_dict self
        else delete key (EventMessageUpdated.to_dict self))) .
Proof.
  split; intros self key; split.
  - intros v. apply map_eq; intros k.
    case_decide as Hkey; rewrite tokens_field_names_elem in Hkey;
      rewrite ?lookup_insert, !tokens_to_dict_lookup; simpl;
      unfold dict_setitem; rewrite lookup_insert;
      repeat case_decide; subst; try done; tauto.
  - intros self'. unfold AssistantMessageTokens.__delitem__, dict_delitem.
    destruct (AssistantMessageTokens.additional_properties self !! key);
      [|done].
    intros [= <-]. apply map_eq; intros k.
    case_decide as Hkey; rewrite tokens_field_names_elem in Hkey;
      rewrite ?lookup_delete, !tokens_to_dict_lookup; simpl;
      rewrite lookup_delete;
      repeat case_decide; subst; try done; tauto.
  - intros v. apply map_eq; intros k.
    case_decide as Hkey; rewrite event_field_names_elem in Hkey;
      rewrite ?lookup_insert, !event_to_dict_lookup; simpl;
      unfold dict_setitem; rewrite lookup_insert;
      repeat case_decide; subst; try done; tauto.
  - intros self'. unfold EventMessageUpdated.__delitem__, dict_delitem.
    destruct (EventMessageUpdated.additional_properties self !! key);
      [|done].
    intros [= <-]. apply map_eq; intros k.
    case_decide as Hkey; rewrite event_field_names_elem in Hkey;
      rewrite ?lookup_delete, !event_to_dict_lookup; simpl;
      rewrite lookup_delete;
      repeat case_decide; subst; try done; tauto.
Qed.

(** X10: an assignment to a named attribute changes the entry of that
    attribute in the map [to_dict] returns, and nothing else of it. *)
Theorem to_dict_after_assignment :
  (∀ (self : AssistantMessageTokens.t Cache) (v : value) (c : Cache),
     AssistantMessageTokens.to_dict (AssistantMessageTokens.set_input_ self v)
       = <["input" := v]> (AssistantMessageTokens.to_dict self) ∧
     AssistantMessageTokens.to_dict (AssistantMessageTokens.set_output self v)
       = <["output" := v]> (AssistantMessageTokens.to_dict self) ∧
     AssistantMessageTokens.to_dict
       (AssistantMessageTokens.set_reasoning self v)
       = <["reasoning" := v]> (AssistantMessageTokens.to_dict self) ∧
     AssistantMessageTokens.to_dict (AssistantMessageTokens.set_cache self c)
       = <["cache" := VDict (nested_to_dict c)]>
           (AssistantMessageTokens.to_dict self)) ∧
  (∀ (self : EventMessageUpdated.t Properties) (v : value) (p : Properties),
     EventMessageUpdated.to_dict (EventMessageUpdated.set_type_ self v)
       = <["type" := v]> (EventMessageUpdated.to_dict self) ∧
     EventMessageUpdated.to_dict (EventMessageUpdated.set_properties self p)
       = <["properties" := VDict (nested_to_dict p)]>
           (EventMessageUpdated.to_dict self)).
Proof.
  split; intros self v c; split_and!; apply map_eq; intros k;
    rewrite lookup_insert, ?tokens_to_dict_lookup, ?event_to_dict_lookup;
    simpl; repeat case_decide; subst; done.
Qed.

(** ** [additional_keys] *)

(** X11: [additional_keys] lists the keys of the bag, each once: a key is
    in the list exactly when [__contains__] holds of it; the list of a new
    instance is empty; the list of an instance returned by [from_dict]
    holds the keys of the input map that are not named-field keys. *)
Theorem additional_keys_are_bag_keys :
  (∀ self : AssistantMessageTokens.t Cache,
     NoDup (AssistantMessageTokens.additional_keys self) ∧
     (∀ key, key ∈ AssistantMessageTokens.additional_keys self ↔
             AssistantMessageTokens.__contains__ self key = true) ∧
     (∀ m, AssistantMessageTokens.from_dict m = Ok self →
        ∀ key, key ∈ AssistantMessageTokens.additional_keys self ↔
               is_Some (m !! key) ∧
               key ∉ AssistantMessageTokens.field_names)) ∧
  (∀ i o r (c : Cache),
     AssistantMessageTokens.additional_keys
       (AssistantMessageTokens.__init__ i o r c) = []) ∧
  (∀ self : EventMessageUpdated.t Properties,
     NoDup (EventMessageUpdated.additional_keys self) ∧
     (∀ key, key ∈ EventMessageUpdated.additional_keys self ↔
             EventMessageUpdated.__contains__ self key = true) ∧
     (∀ m, EventMessageUpdated.from_dict m = Ok self →
        ∀ key, key ∈ EventMessageUpdated.additional_keys self ↔
               is_Some (m !! key) ∧
               key ∉ EventMessageUpdated.field_names)) ∧
  (∀ ty (p : Properties),
     EventMessageUpdated.additional_keys
       (EventMessageUpdated.__init__ ty p) = []).
Proof.
  split_and!.
  - intros self. unfold AssistantMessageTokens.additional_keys,
      AssistantMessageTokens.__contains__, dict_contains. split_and!.
    + apply NoDup_fst_map_to_list.
    + intros key. by rewrite additional_keys_of_bag, bool_decide_eq_true.
    + intros m (_ & _ & _ & _ & Hbag)%tokens_from_dict_inv key.
      rewrite additional_keys_of_bag, Hbag, tokens_bag_of_deletes.
      case_decide; split; try tauto. by intros [? ?].
  - intros i o r c. unfold AssistantMessageTokens.additional_keys. simpl.
    by rewrite map_to_list_empty.
  - intros self. unfold EventMessageUpdated.additional_keys,
      EventMessageUpdated.__contains__, dict_contains. split_and!.
    + apply NoDup_fst_map_to_list.
    + intros key. by rewrite additional_keys_of_bag, bool_decide_eq_true.
    + intros m (_ & _ & _ & Hbag)%event_from_dict_inv key.
      rewrite additional_keys_of_bag, Hbag, event_bag_of_deletes.
      case_decide; split; try tauto. by intros [? ?].
  - intros ty p. unfold EventMessageUpdated.additional_keys. simpl.
    by rewrite map_to_list_empty.
Qed.

(** ** The two classes in the store *)

Lemma load_tokens_inv (σ : store) (o : AssistantMessageTokens.record Cache loc)
    (self : AssistantMessageTokens.t Cache) :
  AssistantMessageTokens.load σ o = Some self →
  σ !! AssistantMessageTokens.additional_properties o
    = Some (AssistantMessageTokens.additional_properties self) ∧
  self = AssistantMessageTokens.set_additional_properties o
           (AssistantMessageTokens.additional_properties self).
Proof.
  unfold AssistantMessageTokens.load.
  destruct (σ !! AssistantMessageTokens.additional_properties o) as [d|];
    [|done].
  simpl. by intros [= <-].
Qed.

Lemma load_event_inv (σ : store)
    (o : EventMessageUpdated.record Properties loc)
    (self : EventMessageUpdated.t Properties) :
  EventMessageUpdated.load σ o = Some self →
  σ !! EventMessageUpdated.additional_properties o
    = Some (EventMessageUpdated.additional_properties self) ∧
  self = EventMessageUpdated.set_additional_properties o
           (EventMessageUpdated.additional_properties self).
Proof.
  unfold EventMessageUpdated.load.
  destruct (σ !! EventMessageUpdated.additional_properties o) as [d|];
    [|done].
  simpl. by intros [= <-].
Qed.

(** X12: the accessors act on the dictionary object of the bag in place.
    On a store in which the instance reads as [self], [__getitem__] and
    [__contains__] return what they return on [self] and change nothing;
    [__setitem__] and a successful [__delitem__] leave the instance reading
    as their result on [self] and touch no other object; a [__delitem__]
    that raises changes nothing. *)
Theorem bag_accessors_in_place :
  (∀ (σ : store) (o : AssistantMessageTokens.record Cache loc)
     (self : AssistantMessageTokens.t Cache) (key : string),
     AssistantMessageTokens.load σ o = Some self →
     AssistantMessageTokens.__getitem__st o key σ
       = (AssistantMessageTokens.__getitem__ self key, σ) ∧
     AssistantMessageTokens.__contains__st o key σ
       = (Ok (AssistantMessageTokens.__contains__ self key), σ) ∧
     (∀ v, ∃ σ',
        AssistantMessageTokens.__setitem__st o key v σ = (Ok (), σ') ∧
        AssistantMessageTokens.load σ' o
          = Some (AssistantMessageTokens.__setitem__ self key v) ∧
        ∀ l, l ≠ AssistantMessageTokens.additional_properties o →
             σ' !! l = σ !! l) ∧
     match AssistantMessageTokens.__delitem__ self key with
     | Ok self' => ∃ σ',
         AssistantMessageTokens.__delitem__st o key σ = (Ok (), σ') ∧
         AssistantMessageTokens.load σ' o = Some self' ∧
         ∀ l, l ≠ AssistantMessageTokens.additional_properties o →
              σ' !! l = σ !! l
     | Raise e =>
         AssistantMessageTokens.__delitem__st o key σ = (Raise e, σ)
     end) ∧
  (∀ (σ : store) (o : EventMessageUpdated.record Properties loc)
     (self : EventMessageUpdated.t Properties) (key : string),
     EventMessageUpdated.load σ o = Some self →
     EventMessageUpdated.__getitem__st o key σ
       = (EventMessageUpdated.__getitem__ self key, σ) ∧
     EventMessageUpdated.__contains__st o key σ
       = (Ok (EventMessageUpdated.__contains__ self key), σ) ∧
     (∀ v, ∃ σ',
        EventMessageUpdated.__setitem__st o key v σ = (Ok (), σ') ∧
        EventMessageUpdated.load σ' o
          = Some (EventMessageUpdated.__setitem__ self key v) ∧
        ∀ l, l ≠ EventMessageUpdated.additional_properties o →
             σ' !! l = σ !! l) ∧
     match EventMessageUpdated.__delitem__ self key with
     | Ok self' => ∃ σ',
         EventMessageUpdated.__delitem__st o key σ = (Ok (), σ') ∧
         EventMessageUpdated.load σ' o = Some self' ∧
         ∀ l, l ≠ EventMessageUpdated.additional_properties o →
              σ' !! l = σ !! l
     | Raise e =>
         EventMessageUpdated.__delitem__st o key σ = (Raise e, σ)
     end).
Proof.
  split.
  - intros σ o self key [Hbag Hself]%load_tokens_inv.
    unfold AssistantMessageTokens.__getitem__st, obj_getitem,
      AssistantMessageTokens.__contains__st, obj_contains,
      AssistantMessageTokens.__setitem__st, obj_setitem,
      AssistantMessageTokens.__delitem__st, obj_delitem,
      AssistantMessageTokens.__getitem__,
      AssistantMessageTokens.__contains__,
      AssistantMessageTokens.__setitem__,
      AssistantMessageTokens.__delitem__,
      AssistantMessageTokens.load.
    rewrite Hbag. split_and!; try done.
    + intros v. eexists. split; [done|]. rewrite lookup_insert_eq. simpl.
      split; [by rewrite Hself|]. intros l Hl. by rewrite lookup_insert_ne.
    + destruct (dict_delitem
        (AssistantMessageTokens.additional_properties self) key)
        as [d'|e]; simpl; [|done].
      eexists. split; [done|]. rewrite lookup_insert_eq. simpl.
      split; [by rewrite Hself|]. intros l Hl. by rewrite lookup_insert_ne.
  - intros σ o self key [Hbag Hself]%load_event_inv.
    unfold EventMessageUpdated.__getitem__st, obj_getitem,
      EventMessageUpdated.__contains__st, obj_contains,
      EventMessageUpdated.__setitem__st, obj_setitem,
      EventMessageUpdated.__delitem__st, obj_delitem,
      EventMessageUpdated.__getitem__,
      EventMessageUpdated.__contains__,
      EventMessageUpdated.__setitem__,
      EventMessageUpdated.__delitem__,
      EventMessageUpdated.load.
    rewrite Hbag. split_and!; try done.
    + intros v. eexists. split; [done|]. rewrite lookup_insert_eq. simpl.
      split; [by rewrite Hself|]. intros l Hl. by rewrite lookup_insert_ne.
    + destruct (dict_delitem
        (EventMessageUpdated.additional_properties self) key)
        as [d'|e]; simpl; [|done].
      eexists. split; [done|]. rewrite lookup_insert_eq. simpl.
      split; [by rewrite Hself|]. intros l Hl. by rewrite lookup_insert_ne.
Qed.

Lemma private_bag_lookups (σ : store) src (m md mb : dict) :
  σ !! src = Some m →
  let d := fresh (dom σ) in
  let σd := <[d := md]> σ in
  let σ1 := <[fresh (dom σd) := mb]> σd in
  d ≠ src ∧ σ !! d = None ∧ σ1 !! d = Some md ∧ σ1 !! src = Some m.
Proof.
  intros Hsrc d σd σ1. assert (Hd : σ !! d = None) by apply fresh_loc_None.
  assert (Hne : d ≠ src) by congruence.
  split_and!; [done | done | |].
  - unfold σ1. rewrite lookup_insert_fresh;
      unfold σd; by rewrite lookup_insert_eq.
  - unfold σ1, σd, d. rewrite lookup_insert_insert_fresh; by rewrite Hsrc.
Qed.

(** X13: the bag of an instance returned by [from_dict] is a dictionary
    object of its own, the copy made by [dict(src_dict)], not the
    caller's: an item set or deleted in the bag through [__setitem__] or
    [__delitem__] leaves the key-value pairs of the caller's dictionary as
    they were, and an item set or deleted in the caller's dictionary
    afterwards leaves the key-value pairs of the bag as they were.  (The
    copy is shallow: both dictionaries hold the same value objects, and a
    change made inside such a value is no part of this statement.) *)
Theorem from_dict_bag_is_private :
  (∀ (σ σ1 : store) (src_dict : loc) (m : dict)
     (o : AssistantMessageTokens.record Cache loc),
     σ !! src_dict = Some m →
     AssistantMessageTokens.from_dict_st src_dict σ = (Ok o, σ1) →
     σ !! AssistantMessageTokens.additional_properties o = None ∧
     AssistantMessageTokens.additional_properties o ≠ src_dict ∧
     (∀ key v,
        (AssistantMessageTokens.__setitem__st o key v σ1).2 !! src_dict
          = Some m) ∧
     (∀ key,
        (AssistantMessageTokens.__delitem__st o key σ1).2 !! src_dict
          = Some m) ∧
     (∀ key v,
        AssistantMessageTokens.load (obj_setitem src_dict key v σ1).2 o
          = AssistantMessageTokens.load σ1 o) ∧
     (∀ key,
        AssistantMessageTokens.load (obj_delitem src_dict key σ1).2 o
          = AssistantMessageTokens.load σ1 o)) ∧
  (∀ (σ σ1 : store) (src_dict : loc) (m : dict)
     (o : EventMessageUpdated.record Properties loc),
     σ !! src_dict = Some m →
     EventMessageUpdated.from_dict_st src_dict σ = (Ok o, σ1) →
     σ !! EventMessageUpdated.additional_properties o = None ∧
     EventMessageUpdated.additional_properties o ≠ src_dict ∧
     (∀ key v,
        (EventMessageUpdated.__setitem__st o key v σ1).2 !! src_dict
          = Some m) ∧
     (∀ key,
        (EventMessageUpdated.__delitem__st o key σ1).2 !! src_dict
          = Some m) ∧
     (∀ key v,
        EventMessageUpdated.load (obj_setitem src_dict key v σ1).2 o
          = EventMessageUpdated.load σ1 o) ∧
     (∀ key,
        EventMessageUpdated.load (obj_delitem src_dict key σ1).2 o
          = EventMessageUpdated.load σ1 o)).
Proof.
  split.
  - intros σ σ1 src m o Hsrc Hst.
    destruct (tokens_from_dict_st_spec (Cache := Cache) σ src m Hsrc)
      as [md Hspec]. simpl in Hspec.
    destruct (AssistantMessageTokens.from_dict m) as [self|e];
      [|rewrite Hspec in Hst; done].
    destruct Hspec as [Hspec ->]. rewrite Hspec in Hst.
    injection Hst as <- <-.
    destruct (private_bag_lookups σ src m
      (AssistantMessageTokens.additional_properties self) ∅ Hsrc)
      as (Hne & Hnew & Hd & Hs).
    unfold AssistantMessageTokens.__setitem__st,
      AssistantMessageTokens.__delitem__st, AssistantMessageTokens.load,
      obj_setitem, obj_delitem. simpl.
    split_and!; try done.
    + intros key v. rewrite Hd. simpl. by rewrite lookup_insert_ne.
    + intros key. rewrite Hd.
      destruct (dict_delitem _ key); simpl; [|done].
      by rewrite lookup_insert_ne.
    + intros key v. rewrite Hs. simpl. by rewrite lookup_insert_ne.
    + intros key. rewrite Hs.
      destruct (dict_delitem m key); simpl; [|done].
      by rewrite lookup_insert_ne.
  - intros σ σ1 src m o Hsrc Hst.
    destruct (event_from_dict_st_spec (Properties := Properties) σ src m
      Hsrc) as [md Hspec]. simpl in Hspec.
    destruct (EventMessageUpdated.from_dict m) as [self|e];
      [|rewrite Hspec in Hst; done].
    destruct Hspec as [Hspec ->]. rewrite Hspec in Hst.
    injection Hst as <- <-.
    destruct (private_bag_lookups σ src m
      (EventMessageUpdated.additional_properties self) ∅ Hsrc)
      as (Hne & Hnew & Hd & Hs).
    unfold EventMessageUpdated.__setitem__st,
      EventMessageUpdated.__delitem__st, EventMessageUpdated.load,
      obj_setitem, obj_delitem. simpl.
    split_and!; try done.
    + intros key v. rewrite Hd. simpl. by rewrite lookup_insert_ne.
    + intros key. rewrite Hd.
      destruct (dict_delitem _ key); simpl; [|done].
      by rewrite lookup_insert_ne.
    + intros key v. rewrite Hs. simpl. by rewrite lookup_insert_ne.
    + intros key. rewrite Hs.
      destruct (dict_delitem m key); simpl; [|done].
      by rewrite lookup_insert_ne.
Qed.

Lemma load_tokens_fields (σ : store)
    (o : AssistantMessageTokens.record Cache loc)
    (self : AssistantMessageTokens.t Cache) :
  AssistantMessageTokens.load σ o = Some self →
  AssistantMessageTokens.input_ self = AssistantMessageTokens.input_ o ∧
  AssistantMessageTokens.output self = AssistantMessageTokens.output o ∧
  AssistantMessageTokens.reasoning self
    = AssistantMessageTokens.reasoning o ∧
  AssistantMessageTokens.cache self = AssistantMessageTokens.cache o.
Proof.
  unfold AssistantMessageTokens.load.
  destruct (σ !! AssistantMessageTokens.additional_properties o) as [d|];
    [|done].
  simpl. by intros [= <-].
Qed.

Lemma load_event_fields (σ : store)
    (o : EventMessageUpdated.record Properties loc)
    (self : EventMessageUpdated.t Properties) :
  EventMessageUpdated.load σ o = Some self →
  EventMessageUpdated.type_ self = EventMessageUpdated.type_ o ∧
  EventMessageUpdated.properties self = EventMessageUpdated.properties o.
Proof.
  unfold EventMessageUpdated.load.
  destruct (σ !! EventMessageUpdated.additional_properties o) as [d|];
    [|done].
  simpl. by intros [= <-].
Qed.

Lemma obj_update_insert (σ : store) f (m other : dict) b :
  f ≠ b → σ !! b = Some other →
  obj_update f b (<[f := m]> σ)
    = (Ok (), <[f := dict_update m other]> σ).
Proof.
  intros Hne Hb. unfold obj_update.
  by rewrite lookup_insert_eq, lookup_insert_ne, Hb, insert_insert_eq.
Qed.

Lemma fresh_after_insert (σ : store) f (m : dict) :
  let t := fresh (dom (<[f := m]> σ)) in t ≠ f ∧ σ !! t = None.
Proof.
  intros t. pose proof (fresh_loc_None (<[f := m]> σ)) as Ht. fold t in Ht.
  assert (Hne : t ≠ f).
  { intros Heq. rewrite Heq, lookup_insert_eq in Ht. done. }
  split; [done|]. by rewrite lookup_insert_ne in Ht.
Qed.

(** The store after [to_dict_st]: the new dictionary at [f], the
    dictionary display at [t]. *)
Lemma to_dict_store_lookups (σ : store) (bag lit out : dict) b :
  σ !! b = Some bag →
  let f := fresh (dom σ) in
  let t := fresh (dom (<[f := dict_update ∅ bag]> σ)) in
  let σ' := <[f := out]> (<[t := lit]> σ) in
  σ !! f = None ∧ b ≠ f ∧ σ' !! f = Some out ∧
  (∀ l, is_Some (σ !! l) → σ' !! l = σ !! l) ∧
  ∀ out', <[f := out']> σ' !! b = Some bag.
Proof.
  intros Hb f t σ'.
  assert (Hf : σ !! f = None) by apply fresh_loc_None.
  destruct (fresh_after_insert σ f (dict_update ∅ bag)) as [Htf Ht].
  fold f in Htf, Ht. fold t in Htf, Ht.
  assert (Hframe : ∀ l, is_Some (σ !! l) → σ' !! l = σ !! l).
  { intros l [x Hl]. unfold σ'.
    rewrite !lookup_insert_ne by congruence. done. }
  split_and!; [done | congruence | apply lookup_insert_eq | done |].
  intros out'. rewrite lookup_insert_ne by congruence.
  rewrite Hframe by (by rewrite Hb). done.
Qed.


(** The four steps of [to_dict] in the store. *)
Lemma build_field_dict (σ : store) b (bag lit : dict) :
  σ !! b = Some bag →
  (field_dict ← obj_new ∅;
   _ ← obj_update field_dict b;
   fields ← obj_new lit;
   _ ← obj_update field_dict fields;
   mret field_dict) σ =
  (Ok (fresh (dom σ)),
   <[fresh (dom σ) := dict_update (dict_update ∅ bag) lit]>
     (<[fresh (dom (<[fresh (dom σ) := dict_update ∅ bag]> σ)) := lit]>
        σ)).
Proof.
  intros Hb.
  assert (Hne : fresh (dom σ) ≠ b).
  { intros Heq. pose proof (fresh_loc_None σ) as Hf. congruence. }
  destruct (fresh_after_insert σ (fresh (dom σ)) (dict_update ∅ bag))
    as [Htf Ht].
  rewrite M_bind_eq. unfold obj_new at 1. cbv zeta.
  rewrite M_bind_eq, (obj_update_insert _ _ _ _ _ Hne Hb).
  rewrite M_bind_eq. unfold obj_new at 1. cbv zeta.
  rewrite M_bind_eq, (insert_insert_ne _ _ _ _ _ Htf).
  rewrite (obj_update_insert _ _ _ lit _ (not_eq_sym Htf)
             (lookup_insert_eq _ _ _)).
  reflexivity.
Qed.

(** X14: [to_dict] builds its map in a new dictionary object.  On a store
    in which the instance reads as [self], it returns the location of an
    object that was not in the store and now holds [to_dict self]; every
    object of the store, the bag among them, is as it was, and an item set
    or deleted in the returned dictionary afterwards leaves the key-value
    pairs of the bag as they were.  (The returned dictionary holds the
    value objects of the bag, and a change made inside such a value is no
    part of this statement.) *)
Theorem to_dict_returns_new_dict :
  (∀ (σ : store) (o : AssistantMessageTokens.record Cache loc)
     (self : AssistantMessageTokens.t Cache),
     AssistantMessageTokens.load σ o = Some self →
     ∃ field_dict σ',
       AssistantMessageTokens.to_dict_st o σ = (Ok field_dict, σ') ∧
       σ !! field_dict = None ∧
       σ' !! field_dict = Some (AssistantMessageTokens.to_dict self) ∧
       (∀ l, is_Some (σ !! l) → σ' !! l = σ !! l) ∧
       AssistantMessageTokens.load σ' o = Some self ∧
       (∀ key v,
          AssistantMessageTokens.load (obj_setitem field_dict key v σ').2 o
            = Some self) ∧
       ∀ key,
         AssistantMessageTokens.load (obj_delitem field_dict key σ').2 o
           = Some self) ∧
  (∀ (σ : store) (o : EventMessageUpdated.record Properties loc)
     (self : EventMessageUpdated.t Properties),
     EventMessageUpdated.load σ o = Some self →
     ∃ field_dict σ',
       EventMessageUpdated.to_dict_st o σ = (Ok field_dict, σ') ∧
       σ !! field_dict = None ∧
       σ' !! field_dict = Some (EventMessageUpdated.to_dict self) ∧
       (∀ l, is_Some (σ !! l) → σ' !! l = σ !! l) ∧
       EventMessageUpdated.load σ' o = Some self ∧
       (∀ key v,
          EventMessageUpdated.load (obj_setitem field_dict key v σ').2 o
            = Some self) ∧
       ∀ key,
         EventMessageUpdated.load (obj_delitem field_dict key σ').2 o
           = Some self).
Proof.
  split.
  - intros σ o self Hload.
    pose proof Hload as [Hbag Hself]%load_tokens_inv.
    pose proof Hload as (Hi & Ho & Hr & Hc)%load_tokens_fields.
    pose proof (build_field_dict σ _ _
      (<["input" := AssistantMessageTokens.input_ o]>
        (<["output" := AssistantMessageTokens.output o]>
          (<["reasoning" := AssistantMessageTokens.reasoning o]>
            (<["cache" := VDict (nested_to_dict
                                   (AssistantMessageTokens.cache o))]>
               ∅)))) Hbag) as Hrun.
    assert (Hto :
      dict_update
        (dict_update ∅ (AssistantMessageTokens.additional_properties self))
      (<["input" := AssistantMessageTokens.input_ o]>
        (<["output" := AssistantMessageTokens.output o]>
          (<["reasoning" := AssistantMessageTokens.reasoning o]>
            (<["cache" := VDict (nested_to_dict
                                   (AssistantMessageTokens.cache o))]>
               ∅)))) = AssistantMessageTokens.to_dict self).
    { unfold AssistantMessageTokens.to_dict. cbv zeta. rewrite Hi, Ho, Hr, Hc.
      reflexivity. }
    rewrite Hto in Hrun.
    destruct (to_dict_store_lookups σ
      (AssistantMessageTokens.additional_properties self)
      (<["input" := AssistantMessageTokens.input_ o]>
        (<["output" := AssistantMessageTokens.output o]>
          (<["reasoning" := AssistantMessageTokens.reasoning o]>
            (<["cache" := VDict (nested_to_dict
                                   (AssistantMessageTokens.cache o))]>
               ∅))))
      (AssistantMessageTokens.to_dict self) _ Hbag)
      as (Hf & Hne & Hout & Hframe & Hset).
    eexists _, _. split_and!;
      [| exact Hf | exact Hout | exact Hframe | | |].
    + unfold AssistantMessageTokens.to_dict_st. exact Hrun.
    + unfold AssistantMessageTokens.load. rewrite Hframe by by rewrite Hbag.
      rewrite Hbag. simpl. f_equal. symmetry. exact Hself.
    + intros key v. unfold obj_setitem. rewrite Hout. cbn [snd].
      unfold AssistantMessageTokens.load. rewrite Hset. simpl.
      f_equal. symmetry. exact Hself.
    + intros key. unfold obj_delitem. rewrite Hout.
      destruct (dict_delitem (AssistantMessageTokens.to_dict self) key)
        as [out'|];
        cbn [snd]; unfold AssistantMessageTokens.load.
      * rewrite Hset. simpl. f_equal. symmetry. exact Hself.
      * rewrite Hframe by by rewrite Hbag.
        rewrite Hbag. simpl. f_equal. symmetry. exact Hself.
  - intros σ o self Hload.
    pose proof Hload as [Hbag Hself]%load_event_inv.
    pose proof Hload as (Hty & Hp)%load_event_fields.
    pose proof (build_field_dict σ _ _
      (<["type" := EventMessageUpdated.type_ o]>
        (<["properties" := VDict (nested_to_dict
                                    (EventMessageUpdated.properties o))]>
           ∅)) Hbag) as Hrun.
    assert (Hto :
      dict_update
        (dict_update ∅ (EventMessageUpdated.additional_properties self))
      (<["type" := EventMessageUpdated.type_ o]>
        (<["properties" := VDict (nested_to_dict
                                    (EventMessageUpdated.properties o))]>
           ∅)) = EventMessageUpdated.to_dict self).
    { unfold EventMessageUpdated.to_dict. cbv zeta. rewrite Hty, Hp.
      reflexivity. }
    rewrite Hto in Hrun.
    destruct (to_dict_store_lookups σ
      (EventMessageUpdated.additional_properties self)
      (<["type" := EventMessageUpdated.type_ o]>
        (<["properties" := VDict (nested_to_dict
                                    (EventMessageUpdated.properties o))]>
           ∅))
      (EventMessageUpdated.to_dict self) _ Hbag)
      as (Hf & Hne & Hout & Hframe & Hset).
    eexists _, _. split_and!;
      [| exact Hf | exact Hout | exact Hframe | | |].
    + unfold EventMessageUpdated.to_dict_st. exact Hrun.
    + unfold EventMessageUpdated.load. rewrite Hframe by by rewrite Hbag.
      rewrite Hbag. simpl. f_equal. symmetry. exact Hself.
    + intros key v. unfold obj_setitem. rewrite Hout. cbn [snd].
      unfold EventMessageUpdated.load. rewrite Hset. simpl.
      f_equal. symmetry. exact Hself.
    + intros key. unfold obj_delitem. rewrite Hout.
      destruct (dict_delitem (EventMessageUpdated.to_dict self) key) as [out'|];
        cbn [snd]; unfold EventMessageUpdated.load.
      * rewrite Hset. simpl. f_equal. symmetry. exact Hself.
      * rewrite Hframe by by rewrite Hbag.
        rewrite Hbag. simpl. f_equal. symmetry. exact Hself.
Qed.
End further.

(** ** The further properties on concrete records *)

Lemma from_dict_succeeds_iff_witness :
  @AssistantMessageTokens.from_dict _ cache_codec tokens_map0 = Ok tokens0 ∧
  tokens_map0 !! "input" = Some (AssistantMessageTokens.input_ tokens0) ∧
  @EventMessageUpdated.from_dict _ properties_codec event_map0 = Ok event0 ∧
  event_map0 !! "type" = Some (VStr "message.updated").
Proof.
  pose proof (@from_dict_succeeds_iff _ _ cache_codec properties_codec)
    as [Htokens Hevent].
  assert (H1 : @AssistantMessageTokens.from_dict _ cache_codec tokens_map0
                 = Ok tokens0) by (vm_compute; reflexivity).
  assert (H2 : @EventMessageUpdated.from_dict _ properties_codec event_map0
                 = Ok event0) by (vm_compute; reflexivity).
  split_and!; [exact H1 | | exact H2 |].
  - exact (proj1 (proj1 (Htokens tokens_map0 tokens0) H1)).
  - exact (proj1 (proj2 (proj1 (Hevent event_map0 event0) H2))).
Defined.

Lemma tokens_from_dict_error_order_witness :
  (is_Some (delete "reasoning" tokens_map0 !! "input") ∧
   is_Some (delete "reasoning" tokens_map0 !! "output") ∧
   delete "reasoning" tokens_map0 !! "reasoning" = None ∧
   @AssistantMessageTokens.from_dict _ cache_codec
     (delete "reasoning" tokens_map0) = Raise (KeyError "reasoning")) ∧
  (bad_cache_map !! "cache" = Some (VInt 3) ∧
   @AssistantMessageTokens.from_dict _ cache_codec bad_cache_map
     = Raise TypeError).
Proof.
  assert (Hi : is_Some (delete "reasoning" tokens_map0 !! "input"))
    by (by exists one).
  assert (Ho : is_Some (delete "reasoning" tokens_map0 !! "output"))
    by (by exists zero).
  split.
  - split_and!; [exact Hi | exact Ho | reflexivity |].
    exact (proj1 (proj2 (proj2 (@tokens_from_dict_error_order _ cache_codec
             (delete "reasoning" tokens_map0)))) Hi Ho eq_refl).
  - split; [reflexivity|].
    exact (proj2 (proj2 (proj2 (proj2 (@tokens_from_dict_error_order _
             cache_codec bad_cache_map)))) one zero zero (VInt 3)
             eq_refl eq_refl eq_refl eq_refl).
Defined.

Lemma from_dict_errors_classified_witness :
  (@AssistantMessageTokens.from_dict _ cache_codec bad_cache_map
     = Raise TypeError ∧
   ((bad_cache_map !! "input" = None ∧ TypeError = KeyError "input") ∨
    (is_Some (bad_cache_map !! "input") ∧
     bad_cache_map !! "output" = None ∧ TypeError = KeyError "output") ∨
    (is_Some (bad_cache_map !! "input") ∧
     is_Some (bad_cache_map !! "output") ∧
     bad_cache_map !! "reasoning" = None ∧
     TypeError = KeyError "reasoning") ∨
    (is_Some (bad_cache_map !! "input") ∧
     is_Some (bad_cache_map !! "output") ∧
     is_Some (bad_cache_map !! "reasoning") ∧
     bad_cache_map !! "cache" = None ∧ TypeError = KeyError "cache") ∨
    (is_Some (bad_cache_map !! "input") ∧
     is_Some (bad_cache_map !! "output") ∧
     is_Some (bad_cache_map !! "reasoning") ∧
     ∃ cv, bad_cache_map !! "cache" = Some cv ∧
           @nested_from_dict _ cache_codec cv = Raise TypeError))) ∧
  (@EventMessageUpdated.from_dict _ properties_codec wrong_tag_map
     = Raise (ValueError "message.updated" (VStr "wrong.value")) ∧
   ((wrong_tag_map !! "type" = None ∧
     ValueError "message.updated" (VStr "wrong.value") = KeyError "type") ∨
    (∃ v, wrong_tag_map !! "type" = Some v ∧ v ≠ VStr "message.updated" ∧
          ValueError "message.updated" (VStr "wrong.value")
            = ValueError "message.updated" v) ∨
    (wrong_tag_map !! "type" = Some (VStr "message.updated") ∧
     wrong_tag_map !! "properties" = None ∧
     ValueError "message.updated" (VStr "wrong.value")
       = KeyError "properties") ∨
    (wrong_tag_map !! "type" = Some (VStr "message.updated") ∧
     ∃ pv, wrong_tag_map !! "properties" = Some pv ∧
           @nested_from_dict _ properties_codec pv
             = Raise (ValueError "message.updated" (VStr "wrong.value"))))).
Proof.
  pose proof (@from_dict_errors_classified _ _ cache_codec properties_codec)
    as [Htokens Hevent].
  assert (H1 : @AssistantMessageTokens.from_dict _ cache_codec bad_cache_map
                 = Raise TypeError) by (vm_compute; reflexivity).
  assert (H2 : @EventMessageUpdated.from_dict _ properties_codec
                 wrong_tag_map
               = Raise (ValueError "message.updated" (VStr "wrong.value")))
    by (vm_compute; reflexivity).
  split; (split; [done|]).
  - exact (Htokens bad_cache_map TypeError H1).
  - exact (Hevent wrong_tag_map _ H2).
Defined.

Lemma from_dict_to_dict_normalizes_witness :
  @roundtrips _ cache_codec cache0 ∧
  @AssistantMessageTokens.from_dict _ cache_codec
    (@AssistantMessageTokens.to_dict _ cache_codec
       (AssistantMessageTokens.__setitem__ tokens0 "input" (VInt 7)))
    = Ok (AssistantMessageTokens.set_additional_properties
            (AssistantMessageTokens.__setitem__ tokens0 "input" (VInt 7))
            (delete "cache" (delete "reasoning" (delete "output"
               (delete "input"
                  (AssistantMessageTokens.additional_properties
                     (AssistantMessageTokens.__setitem__ tokens0 "input"
                        (VInt 7)))))))).
Proof.
  assert (Hrt : @roundtrips _ cache_codec cache0)
    by (vm_compute; reflexivity).
  split; [exact Hrt|].
  exact (proj1 (proj1 (@from_dict_to_dict_normalizes _ _ cache_codec
           properties_codec)
           (AssistantMessageTokens.__setitem__ tokens0 "input" (VInt 7))
           Hrt)).
Defined.

Lemma from_dict_result_roundtrips_witness :
  (@AssistantMessageTokens.from_dict _ cache_codec tokens_map0 = Ok tokens0 ∧
   @roundtrips _ cache_codec (AssistantMessageTokens.cache tokens0) ∧
   @AssistantMessageTokens.from_dict _ cache_codec
     (@AssistantMessageTokens.to_dict _ cache_codec tokens0) = Ok tokens0) ∧
  (@EventMessageUpdated.from_dict _ properties_codec event_map0 = Ok event0 ∧
   @roundtrips _ properties_codec (EventMessageUpdated.properties event0) ∧
   @EventMessageUpdated.from_dict _ properties_codec
     (@EventMessageUpdated.to_dict _ properties_codec event0) = Ok event0).
Proof.
  pose proof (@from_dict_result_roundtrips _ _ cache_codec properties_codec)
    as [Htokens Hevent].
  assert (H1 : @AssistantMessageTokens.from_dict _ cache_codec tokens_map0
                 = Ok tokens0) by (vm_compute; reflexivity).
  assert (R1 : @roundtrips _ cache_codec
                 (AssistantMessageTokens.cache tokens0))
    by (vm_compute; reflexivity).
  assert (H2 : @EventMessageUpdated.from_dict _ properties_codec event_map0
                 = Ok event0) by (vm_compute; reflexivity).
  assert (R2 : @roundtrips _ properties_codec
                 (EventMessageUpdated.properties event0))
    by (vm_compute; reflexivity).
  split; (split_and!; [done | done |]).
  - exact (Htokens tokens_map0 tokens0 H1 R1).
  - exact (Hevent event_map0 event0 H2 R2).
Defined.

Lemma from_dict_unknown_key_witness :
  ("later" ∉ AssistantMessageTokens.field_names) ∧
  (@AssistantMessageTokens.from_dict _ cache_codec
     (<["later" := VNone]> tokens_map0) =
     (self ← @AssistantMessageTokens.from_dict _ cache_codec tokens_map0;
      mret (AssistantMessageTokens.__setitem__ self "later" VNone))) ∧
  ("later" ∉ EventMessageUpdated.field_names) ∧
  (@EventMessageUpdated.from_dict _ properties_codec
     (<["later" := VNone]> wrong_tag_map) =
     (self ← @EventMessageUpdated.from_dict _ properties_codec wrong_tag_map;
      mret (EventMessageUpdated.__setitem__ self "later" VNone))).
Proof.
  pose proof (@from_dict_unknown_key _ _ cache_codec properties_codec)
    as [Htokens Hevent].
  assert (N1 : "later" ∉ AssistantMessageTokens.field_names).
  { rewrite tokens_field_names_elem. intros [?|[?|[?|?]]]; discriminate. }
  assert (N2 : "later" ∉ EventMessageUpdated.field_names).
  { rewrite event_field_names_elem. intros [?|?]; discriminate. }
  split_and!; [exact N1 | | exact N2 |].
  - exact (proj1 (Htokens tokens_map0 "later" VNone N1)).
  - exact (proj1 (Hevent wrong_tag_map "later" VNone N2)).
Defined.

Lemma bag_accessors_compose_witness :
  (AssistantMessageTokens.__contains__ tokens0 "other" = false ∧
   AssistantMessageTokens.__delitem__
     (AssistantMessageTokens.__setitem__ tokens0 "other" VNone) "other"
     = Ok tokens0) ∧
  (EventMessageUpdated.__delitem__ event0 "extra"
     = Ok (EventMessageUpdated.__init__ (VStr "message.updated")
             properties0) ∧
   EventMessageUpdated.__getitem__ event0 "extra" = Ok (VInt 42) ∧
   EventMessageUpdated.__setitem__
     (EventMessageUpdated.__init__ (VStr "message.updated") properties0)
     "extra" (VInt 42) = event0).
Proof.
  pose proof (@bag_accessors_compose FlatRecord.t FlatRecord.t)
    as [Htokens Hevent].
  destruct (Htokens tokens0 "other" VNone) as (_ & _ & _ & Hundo & _).
  destruct (Hevent event0 "extra" VNone) as (_ & _ & _ & _ & Hdel).
  assert (D : EventMessageUpdated.__delitem__ event0 "extra"
     = Ok (EventMessageUpdated.__init__ (VStr "message.updated")
             properties0)) by (vm_compute; reflexivity).
  split; [split; [reflexivity | exact (Hundo eq_refl)]|].
  split_and!; [exact D | reflexivity |].
  exact (proj2 (proj2 (Hdel _ D)) (VInt 42) eq_refl).
Defined.

Lemma to_dict_after_bag_update_witness :
  AssistantMessageTokens.__delitem__ tokens0 "extra"
    = Ok (AssistantMessageTokens.__init__ one zero zero cache0) ∧
  @AssistantMessageTokens.to_dict _ cache_codec
    (AssistantMessageTokens.__init__ one zero zero cache0) =
  (if decide ("extra" ∈ AssistantMessageTokens.field_names)
   then @AssistantMessageTokens.to_dict _ cache_codec tokens0
   else delete "extra"
          (@AssistantMessageTokens.to_dict _ cache_codec tokens0)).
Proof.
  assert (D : AssistantMessageTokens.__delitem__ tokens0 "extra"
    = Ok (AssistantMessageTokens.__init__ one zero zero cache0))
    by (vm_compute; reflexivity).
  split; [exact D|].
  exact (proj2 (proj1 (@to_dict_after_bag_update _ _ cache_codec
           properties_codec) tokens0 "extra") _ D).
Defined.

Lemma additional_keys_are_bag_keys_witness :
  @AssistantMessageTokens.from_dict _ cache_codec tokens_map0 = Ok tokens0 ∧
  ("extra" ∈ AssistantMessageTokens.additional_keys tokens0 ↔
   is_Some (tokens_map0 !! "extra") ∧
   "extra" ∉ AssistantMessageTokens.field_names).
Proof.
  assert (H1 : @AssistantMessageTokens.from_dict _ cache_codec tokens_map0
                 = Ok tokens0) by (vm_compute; reflexivity).
  split; [exact H1|].
  exact (proj2 (proj2 (proj1 (@additional_keys_are_bag_keys _ _ cache_codec
           properties_codec) tokens0)) tokens_map0 H1 "extra").
Defined.

Lemma bag_accessors_in_place_witness :
  (@AssistantMessageTokens.load FlatRecord.t bag_store0 tokens_obj0
     = Some tokens0 ∧
   AssistantMessageTokens.__getitem__st tokens_obj0 "extra" bag_store0
     = (AssistantMessageTokens.__getitem__ tokens0 "extra", bag_store0) ∧
   AssistantMessageTokens.__delitem__st tokens_obj0 "other" bag_store0
     = (Raise (KeyError "other"), bag_store0)) ∧
  (@EventMessageUpdated.load FlatRecord.t bag_store0 event_obj0
     = Some event0 ∧
   EventMessageUpdated.__contains__st event_obj0 "extra" bag_store0
     = (Ok (EventMessageUpdated.__contains__ event0 "extra"), bag_store0)).
Proof.
  pose proof (@bag_accessors_in_place FlatRecord.t FlatRecord.t)
    as [Htokens Hevent].
  assert (L1 : @AssistantMessageTokens.load FlatRecord.t bag_store0
                 tokens_obj0 = Some tokens0) by reflexivity.
  assert (L2 : @EventMessageUpdated.load FlatRecord.t bag_store0 event_obj0
                 = Some event0) by reflexivity.
  split.
  - destruct (Htokens bag_store0 tokens_obj0 tokens0 "extra" L1)
      as (Hget & _).
    destruct (Htokens bag_store0 tokens_obj0 tokens0 "other" L1)
      as (_ & _ & _ & Hdel).
    split_and!; [exact L1 | exact Hget | exact Hdel].
  - destruct (Hevent bag_store0 event_obj0 event0 "extra" L2)
      as (_ & Hin & _).
    split; [exact L2 | exact Hin].
Defined.

Lemma from_dict_bag_is_private_witness :
  (store0 tokens_map0 !! 1%positive = Some tokens_map0 ∧
   @AssistantMessageTokens.from_dict_st _ cache_codec 1%positive
     (store0 tokens_map0) = (Ok tokens_obj1, store1 tokens_map0) ∧
   (AssistantMessageTokens.__setitem__st tokens_obj1 "input" VNone
      (store1 tokens_map0)).2 !! 1%positive = Some tokens_map0) ∧
  (store0 event_map0 !! 1%positive = Some event_map0 ∧
   @EventMessageUpdated.from_dict_st _ properties_codec 1%positive
     (store0 event_map0) = (Ok event_obj1, store1 event_map0) ∧
   (EventMessageUpdated.__delitem__st event_obj1 "extra"
      (store1 event_map0)).2 !! 1%positive = Some event_map0).
Proof.
  pose proof (@from_dict_bag_is_private _ _ cache_codec properties_codec)
    as [Htokens Hevent].
  assert (F1 : @AssistantMessageTokens.from_dict_st _ cache_codec 1%positive
     (store0 tokens_map0) = (Ok tokens_obj1, store1 tokens_map0))
    by (vm_compute; reflexivity).
  assert (F2 : @EventMessageUpdated.from_dict_st _ properties_codec
     1%positive (store0 event_map0) = (Ok event_obj1, store1 event_map0))
    by (vm_compute; reflexivity).
  split.
  - destruct (Htokens (store0 tokens_map0) (store1 tokens_map0) 1%positive
      tokens_map0 tokens_obj1 eq_refl F1)
      as (_ & _ & Hset & _).
    split_and!; [reflexivity | exact F1 | exact (Hset "input" VNone)].
  - destruct (Hevent (store0 event_map0) (store1 event_map0) 1%positive
      event_map0 event_obj1 eq_refl F2)
      as (_ & _ & _ & Hdel & _).
    split_and!; [reflexivity | exact F2 | exact (Hdel "extra")].
Defined.

Lemma to_dict_returns_new_dict_witness :
  @AssistantMessageTokens.load FlatRecord.t bag_store0 tokens_obj0
    = Some tokens0 ∧
  ∃ field_dict σ',
    @AssistantMessageTokens.to_dict_st _ cache_codec tokens_obj0 bag_store0
      = (Ok field_dict, σ') ∧
    bag_store0 !! field_dict = None ∧
    σ' !! field_dict
      = Some (@AssistantMessageTokens.to_dict _ cache_codec tokens0) ∧
    @AssistantMessageTokens.load FlatRecord.t σ' tokens_obj0 = Some tokens0.
Proof.
  assert (L1 : @AssistantMessageTokens.load FlatRecord.t bag_store0
                 tokens_obj0 = Some tokens0) by reflexivity.
  split; [exact L1|].
  destruct (proj1 (@to_dict_returns_new_dict _ _ cache_codec
              properties_codec) bag_store0 tokens_obj0 tokens0 L1)
    as (f & σ' & Hrun & Hnew & Hout & _ & Hload & _).
  exists f, σ'.
  split_and!; [exact Hrun | exact Hnew | exact Hout | exact Hload].
Defined.
